(** * Automation rule engine of the CRM backend

    Shallow embedding of [backend/app/services/automation_executor.py]
    (condition evaluator, template substitution, action dispatchers, rule
    executor, trigger dispatcher) and of the rule-management handlers of
    [backend/app/api/automations.py].

    Conventions of the embedding.
    - A Python value that travels through the engine is a JSON value
      ([value]): [None], booleans, integers, strings, lists and string-keyed
      dictionaries.  Floating point numbers are outside the model.
    - Strings are sequences of code points below 256 ([string]).
    - A dictionary is an association list in insertion order, as Python
      dictionaries are; [dict_get] reads the first binding of a key and
      [dict_set] overwrites in place or appends, like [d[k] = v].
    - A call that can raise returns a [result]; code that talks to the
      hosted store, the HTTP client or the clock runs in the monad [M] over
      a [world] that carries the tables and a plan of injected faults.
    - Calls to [logger] only produce diagnostic output and are left out. *)

From Stdlib Require Import String Ascii List ZArith Lia Bool.
From Stdlib Require Import DecimalString.
Import ListNotations.
Local Open Scope string_scope.
Local Open Scope Z_scope.
Set Warnings "-register-all".

(* ===================================================================== *)
(** ** Python values *)
(* ===================================================================== *)

Inductive value : Type :=
| VNone
| VBool (b : bool)
| VInt (n : Z)
| VStr (s : string)
| VList (l : list value)
| VDict (d : list (string * value)).

Definition dict : Type := list (string * value).

(** Exceptions raised by the modelled code ([Exception] subclasses).
    [ExternalError] stands for whatever the store client or the HTTP
    client raises on their own.  [Unmodelled] marks the one place where the
    source would go on with a value outside [value] (a dictionary with a
    key that is not a string); no property below depends on it. *)
Inductive exn : Type :=
| ValueError (msg : string)
| TypeError (msg : string)
| AttributeError (msg : string)
| KeyError (key : string)
| HTTPStatusError (msg : string)
| ExternalError (msg : string)
| Unmodelled (what : string)
| HTTPException (status_code : Z) (detail : string).

Inductive result (A : Type) : Type :=
| Ok (a : A)
| Raise (e : exn).
Arguments Ok {A} a.
Arguments Raise {A} e.

Definition rbind {A B} (r : result A) (k : A -> result B) : result B :=
  match r with
  | Ok a => k a
  | Raise e => Raise e
  end.

Declare Scope result_scope.
Delimit Scope result_scope with result.
Notation "x <- r ;; k" := (rbind r (fun x => k))
  (at level 61, r at next level, right associativity) : result_scope.

(** [bool(v)]. *)
Definition truthy (v : value) : bool :=
  match v with
  | VNone => false
  | VBool b => b
  | VInt n => negb (n =? 0)
  | VStr s => negb (s =? "")%string
  | VList l => match l with [] => false | _ :: _ => true end
  | VDict d => match d with [] => false | _ :: _ => true end
  end.

(** [d.get(k)] on a dictionary with a string key: first binding. *)
Fixpoint dict_get (k : string) (d : dict) : option value :=
  match d with
  | [] => None
  | (k', v) :: d' => if (k =? k')%string then Some v else dict_get k d'
  end.

(** [d.get(k, default)]. *)
Definition dict_get_default (k : string) (default : value) (d : dict) : value :=
  match dict_get k d with
  | Some v => v
  | None => default
  end.

(** [d[k] = v]: overwrite the binding in place, or append a new one. *)
Fixpoint dict_set (k : string) (v : value) (d : dict) : dict :=
  match d with
  | [] => [(k, v)]
  | (k', v') :: d' =>
      if (k =? k')%string then (k, v) :: d' else (k', v') :: dict_set k v d'
  end.

(** [del d[k]] for every binding of [k]. *)
Fixpoint dict_remove (k : string) (d : dict) : dict :=
  match d with
  | [] => []
  | (k', v') :: d' =>
      if (k =? k')%string then dict_remove k d' else (k', v') :: dict_remove k d'
  end.

(** [{**a, **b}]: the bindings of [b] written over [a] in order. *)
Definition dict_merge (a b : dict) : dict :=
  fold_left (fun acc kv => dict_set (fst kv) (snd kv) acc) b a.

Definition bool_to_Z (b : bool) : Z := if b then 1 else 0.

(** Python [==] on JSON values.  [bool] is a subclass of [int], so
    [True == 1]; lists compare element-wise, dictionaries by key. *)
Fixpoint py_eq (a b : value) {struct a} : bool :=
  match a, b with
  | VNone, VNone => true
  | VBool x, VBool y => Bool.eqb x y
  | VBool x, VInt n => bool_to_Z x =? n
  | VInt n, VBool y => n =? bool_to_Z y
  | VInt n, VInt m => n =? m
  | VStr s, VStr t => (s =? t)%string
  | VList l1, VList l2 =>
      (fix eq_list (xs ys : list value) {struct xs} : bool :=
         match xs, ys with
         | [], [] => true
         | x :: xs', y :: ys' => py_eq x y && eq_list xs' ys'
         | _, _ => false
         end) l1 l2
  | VDict d1, VDict d2 =>
      Nat.eqb (length d1) (length d2) &&
      (fix eq_items (items : list (string * value)) {struct items} : bool :=
         match items with
         | [] => true
         | (k, v) :: items' =>
             match dict_get k d2 with
             | Some v' => py_eq v v' && eq_items items'
             | None => false
             end
         end) d1
  | _, _ => false
  end.

(** Python [!=]. *)
Definition py_ne (a b : value) : bool := negb (py_eq a b).

Definition type_name (v : value) : string :=
  match v with
  | VNone => "NoneType"
  | VBool _ => "bool"
  | VInt _ => "int"
  | VStr _ => "str"
  | VList _ => "list"
  | VDict _ => "dict"
  end.

(** [obj.get(key, default)] where [obj] is whatever a previous lookup
    returned.  Only dictionaries have [get]; list and dictionary keys are
    unhashable; a hashable key that is not a string is never bound in a
    JSON object. *)
Definition get (obj key default : value) : result value :=
  match obj with
  | VDict d =>
      match key with
      | VStr k => Ok (dict_get_default k default d)
      | VList _ | VDict _ =>
          Raise (TypeError ("unhashable type: '" ++ type_name key ++ "'"))
      | _ => Ok default
      end
  | _ => Raise (AttributeError
                  ("'" ++ type_name obj ++ "' object has no attribute 'get'"))
  end.

(* ===================================================================== *)
(** ** Condition evaluator *)
(* ===================================================================== *)

(** [old_data.get("status") if old_data else None]. *)
Definition old_status_of (old_data : option dict) : value :=
  match old_data with
  | Some d => if truthy (VDict d) then dict_get_default "status" VNone d else VNone
  | None => VNone
  end.

(** [not old_data] for an optional dictionary. *)
Definition old_data_truthy (old_data : option dict) : bool :=
  match old_data with
  | Some d => truthy (VDict d)
  | None => false
  end.

Definition check_trigger_conditions
    (trigger_config : value) (record : dict) (old_data : option dict)
    (trigger_type : string) : result bool :=
  let record_data := dict_get_default "data" (VDict []) record in
  if (trigger_type =? "status_changed")%string then
    (to_status <- get trigger_config (VStr "to_status") VNone ;;
     from_status <- get trigger_config (VStr "from_status") VNone ;;
     current_status <- get record_data (VStr "status") VNone ;;
     let old_status := old_status_of old_data in
     if truthy to_status && py_ne current_status to_status then Ok false
     else if truthy from_status && py_ne old_status from_status then Ok false
     else if py_eq old_status current_status then Ok false
     else Ok true)%result
  else if (trigger_type =? "field_updated")%string then
    (field_name <- get trigger_config (VStr "field_name") VNone ;;
     if negb (truthy field_name) then Ok true
     else if negb (old_data_truthy old_data) then Ok false
     else
       old_value <- get (VDict (match old_data with Some d => d | None => [] end))
                        field_name VNone ;;
       new_value <- get record_data field_name VNone ;;
       Ok (py_ne old_value new_value))%result
  else if (trigger_type =? "record_created")%string then Ok true
  else if (trigger_type =? "record_deleted")%string then Ok true
  else Ok true.


(* ===================================================================== *)
(** ** Rendering of values: [str] and [repr] *)
(* ===================================================================== *)

Definition hex_digit (n : nat) : ascii :=
  match n with
  | 0 => "0" | 1 => "1" | 2 => "2" | 3 => "3" | 4 => "4" | 5 => "5"
  | 6 => "6" | 7 => "7" | 8 => "8" | 9 => "9" | 10 => "a" | 11 => "b"
  | 12 => "c" | 13 => "d" | 14 => "e" | _ => "f"
  end%nat%char.

Fixpoint string_mem (c : ascii) (s : string) : bool :=
  match s with
  | EmptyString => false
  | String c' s' => (c =? c')%char || string_mem c s'
  end.

(** One character of [repr(s)] for the chosen quote character. *)
Definition repr_char (quote c : ascii) : string :=
  let n := nat_of_ascii c in
  if ((c =? quote) || (c =? "\"))%char then String "\" (String c "")
  else if (n =? 9)%nat then "\t"
  else if (n =? 10)%nat then "\n"
  else if (n =? 13)%nat then "\r"
  else if ((n <? 32) || ((127 <=? n) && (n <=? 160)) || (n =? 173))%nat then
    String "\" (String "x" (String (hex_digit (n / 16)) (String (hex_digit (n mod 16)) "")))
  else String c "".

Fixpoint repr_chars (quote : ascii) (s : string) : string :=
  match s with
  | EmptyString => EmptyString
  | String c s' => repr_char quote c ++ repr_chars quote s'
  end.

Definition dquote : ascii := ascii_of_nat 34.

(** [repr] of a string: single quotes unless the string holds a single
    quote and no double quote. *)
Definition repr_str (s : string) : string :=
  let quote := if string_mem "'" s && negb (string_mem dquote s) then dquote else "'"%char in
  String quote (repr_chars quote s ++ String quote "").

Definition int_str (n : Z) : string := NilZero.string_of_int (Z.to_int n).

Fixpoint join (sep : string) (parts : list string) : string :=
  match parts with
  | [] => ""
  | [p] => p
  | p :: ps => p ++ sep ++ join sep ps
  end.

Fixpoint py_repr (v : value) : string :=
  match v with
  | VNone => "None"
  | VBool true => "True"
  | VBool false => "False"
  | VInt n => int_str n
  | VStr s => repr_str s
  | VList l => "[" ++ join ", " (map py_repr l) ++ "]"
  | VDict d =>
      "{" ++ join ", " (map (fun kv => repr_str (fst kv) ++ ": " ++ py_repr (snd kv)) d) ++ "}"
  end.

(** [str(v)]. *)
Definition py_str (v : value) : string :=
  match v with
  | VStr s => s
  | _ => py_repr v
  end.

(** [str(e)] for the exceptions of the model. *)
Definition exn_str (e : exn) : string :=
  match e with
  | ValueError m | TypeError m | AttributeError m | HTTPStatusError m
  | ExternalError m | Unmodelled m => m
  | KeyError k => repr_str k
  | HTTPException c d => int_str c ++ ": " ++ d
  end.

(* ===================================================================== *)
(** ** Template substitution *)
(* ===================================================================== *)

(** [str.isspace] on code points below 256. *)
Definition is_space (c : ascii) : bool :=
  let n := nat_of_ascii c in
  (((9 <=? n) && (n <=? 13)) || ((28 <=? n) && (n <=? 32))
   || (n =? 133) || (n =? 160))%nat.

Fixpoint lstrip (s : string) : string :=
  match s with
  | EmptyString => EmptyString
  | String c s' => if is_space c then lstrip s' else s
  end.

Definition string_rev (s : string) : string :=
  string_of_list_ascii (rev (list_ascii_of_string s)).

Definition rstrip (s : string) : string := string_rev (lstrip (string_rev s)).

(** [s.strip()]. *)
Definition strip (s : string) : string := rstrip (lstrip s).

(** The longest prefix free of a closing brace, and what follows it:
    the greedy [[^}]*]. *)
Fixpoint span_not_close (s : string) : string * string :=
  match s with
  | EmptyString => (EmptyString, EmptyString)
  | String c s' =>
      if (c =? "}")%char then (EmptyString, s)
      else let (grp, rest) := span_not_close s' in (String c grp, rest)
  end.

(** A match of [\{\{([^}]+)\}\}] anchored at the start of [s]: group 1
    and the length of the whole match. *)
Definition match_token (s : string) : option (string * nat) :=
  match s with
  | String o1 (String o2 rest) =>
      if ((o1 =? "{") && (o2 =? "{"))%char then
        match span_not_close rest with
        | (String c grp, String c1 (String c2 _)) =>
            if ((c1 =? "}") && (c2 =? "}"))%char
            then Some (String c grp, (4 + String.length (String c grp))%nat)
            else None
        | _ => None
        end
      else None
  | _ => None
  end.

(** [re.sub(pattern, repl, s)]: leftmost matches, left to right, not
    overlapping.  [skip] counts the characters of the current match that
    are still to be consumed. *)
Fixpoint re_sub_from (repl : string -> string) (skip : nat) (s : string) : string :=
  match s with
  | EmptyString => EmptyString
  | String c s' =>
      match skip with
      | S n => re_sub_from repl n s'
      | O =>
          match match_token s with
          | Some (grp, len) => repl grp ++ re_sub_from repl (len - 1) s'
          | None => String c (re_sub_from repl 0 s')
          end
      end
  end.

Definition re_sub (repl : string -> string) (s : string) : string :=
  re_sub_from repl 0 s.

(** [{**record_data, "id": record.get("id"),
      "created_at": record.get("created_at")}]. *)
Definition all_data_of (record_data : dict) (record : dict) : dict :=
  dict_set "created_at" (dict_get_default "created_at" VNone record)
    (dict_set "id" (dict_get_default "id" VNone record) record_data).

(** The inner function [replace_var], applied to group 1 of a match. *)
Definition replace_var (all_data : dict) (group1 : string) : string :=
  let var_name := strip group1 in
  let v := dict_get_default var_name (VStr "") all_data in
  match v with
  | VNone => ""
  | _ => py_str v
  end.

Definition _replace_template_variables (template : value) (record : dict)
  : result string :=
  if negb (truthy template) then Ok ""
  else
    match dict_get_default "data" (VDict []) record with
    | VDict record_data =>
        let all_data := all_data_of record_data record in
        match template with
        | VStr t => Ok (re_sub (replace_var all_data) t)
        | _ => Raise (TypeError "expected string or bytes-like object")
        end
    | other =>
        Raise (TypeError ("'" ++ type_name other ++ "' object is not a mapping"))
    end.


(* ===================================================================== *)
(** ** The world: hosted store, HTTP endpoint, clock *)
(* ===================================================================== *)

(** The tables hold rows as dictionaries, in retrieval order.  The table
    [records] is seen through the update requests sent to it.  Each call to
    an external service consumes one entry of [w_faults]: [Some msg] makes
    the call raise, [None] (or an exhausted plan) lets it go through. *)
Record world : Type := mkWorld {
  w_rules : list dict;
  w_entities : list dict;
  w_record_updates : list (value * dict);
  w_logs : list dict;
  w_http_calls : list (string * string * dict * dict);
  w_http_responses : list (Z * string);
  w_faults : list (option string);
  w_ids : list string;
  w_now : string
}.

Definition set_rules (x : list dict) (w : world) : world :=
  mkWorld x (w_entities w) (w_record_updates w) (w_logs w) (w_http_calls w)
    (w_http_responses w) (w_faults w) (w_ids w) (w_now w).
Definition set_record_updates (x : list (value * dict)) (w : world) : world :=
  mkWorld (w_rules w) (w_entities w) x (w_logs w) (w_http_calls w)
    (w_http_responses w) (w_faults w) (w_ids w) (w_now w).
Definition set_logs (x : list dict) (w : world) : world :=
  mkWorld (w_rules w) (w_entities w) (w_record_updates w) x (w_http_calls w)
    (w_http_responses w) (w_faults w) (w_ids w) (w_now w).
Definition set_http_calls (x : list (string * string * dict * dict)) (w : world) : world :=
  mkWorld (w_rules w) (w_entities w) (w_record_updates w) (w_logs w) x
    (w_http_responses w) (w_faults w) (w_ids w) (w_now w).
Definition set_http_responses (x : list (Z * string)) (w : world) : world :=
  mkWorld (w_rules w) (w_entities w) (w_record_updates w) (w_logs w) (w_http_calls w)
    x (w_faults w) (w_ids w) (w_now w).
Definition set_faults (x : list (option string)) (w : world) : world :=
  mkWorld (w_rules w) (w_entities w) (w_record_updates w) (w_logs w) (w_http_calls w)
    (w_http_responses w) x (w_ids w) (w_now w).
Definition set_ids (x : list string) (w : world) : world :=
  mkWorld (w_rules w) (w_entities w) (w_record_updates w) (w_logs w) (w_http_calls w)
    (w_http_responses w) (w_faults w) x (w_now w).

(** Computations that may raise and that act on the world. *)
Definition M (A : Type) : Type := world -> result A * world.

Definition ret {A} (a : A) : M A := fun w => (Ok a, w).

Definition bind {A B} (m : M A) (k : A -> M B) : M B :=
  fun w =>
    match m w with
    | (Ok a, w') => k a w'
    | (Raise e, w') => (Raise e, w')
    end.

Definition raise {A} (e : exn) : M A := fun w => (Raise e, w).

(** [try: body  except Exception as e: handler(e)]. *)
Definition try_except {A} (body : M A) (handler : exn -> M A) : M A :=
  fun w =>
    match body w with
    | (Ok a, w') => (Ok a, w')
    | (Raise e, w') => handler e w'
    end.

(** A pure computation that may raise, run inside [M]. *)
Definition lift {A} (r : result A) : M A := fun w => (r, w).

Declare Scope M_scope.
Delimit Scope M_scope with M.
Notation "x <- m ;; k" := (bind m (fun x => k))
  (at level 61, m at next level, right associativity) : M_scope.
Notation "m ;;; k" := (bind m (fun _ => k))
  (at level 61, right associativity) : M_scope.

(** One call to an external service, as far as failing goes. *)
Definition external : M unit :=
  fun w =>
    match w_faults w with
    | [] => (Ok tt, w)
    | None :: plan => (Ok tt, set_faults plan w)
    | Some msg :: plan => (Raise (ExternalError msg), set_faults plan w)
    end.

(** [datetime.utcnow().isoformat()]. *)
Definition utcnow : M string := fun w => (Ok (w_now w), w).

(** [supabase.table("automation_logs").insert(row).execute()]. *)
Definition insert_log (row : dict) : M unit :=
  (external ;;; fun w => (Ok tt, set_logs (w_logs w ++ [row]) w))%M.

(** [supabase.table("records").update({"data": data}).eq("id", id).execute()]. *)
Definition update_record_data (id : value) (data : dict) : M unit :=
  (external ;;;
   fun w => (Ok tt, set_record_updates (w_record_updates w ++ [(id, data)]) w))%M.

(** Modelled from the spec: the rule store's
    [list_active_rules(workspace_id, entity_id, trigger_kind)], the rows
    of [automation_rules] whose three columns match and whose [is_active]
    is true, in retrieval order. *)
Definition rule_selected (workspace_id entity_id trigger_type : string)
    (row : dict) : bool :=
  py_eq (dict_get_default "workspace_id" VNone row) (VStr workspace_id)
  && py_eq (dict_get_default "entity_id" VNone row) (VStr entity_id)
  && py_eq (dict_get_default "trigger_type" VNone row) (VStr trigger_type)
  && py_eq (dict_get_default "is_active" VNone row) (VBool true).

Definition select_active_rules (workspace_id entity_id trigger_type : string)
  : M (list dict) :=
  (external ;;;
   fun w => (Ok (filter (rule_selected workspace_id entity_id trigger_type)
                        (w_rules w)), w))%M.

(** Modelled from the spec: the outbound HTTP client, one request with a
    JSON body; the answer is the next one the endpoint has in store
    (status 200 with an empty body when none is scripted). *)
Definition http_request (method url : string) (payload headers : dict)
  : M (Z * string) :=
  (external ;;;
   fun w =>
     let w1 := set_http_calls (w_http_calls w ++ [(method, url, payload, headers)]) w in
     match w_http_responses w with
     | [] => (Ok (200, ""%string), w1)
     | r :: rs => (Ok r, set_http_responses rs w1)
     end)%M.

(** Modelled from the spec: [response.raise_for_status()], raising on a
    status outside 200..299. *)
Definition raise_for_status (status_code : Z) : M unit :=
  if (200 <=? status_code) && (status_code <=? 299) then ret tt
  else raise (HTTPStatusError ("HTTP status " ++ int_str status_code)).

(* ===================================================================== *)
(** ** Action dispatchers *)
(* ===================================================================== *)

(** [a or b], with [b] evaluated only when [a] is falsy. *)
Definition py_or (a : value) (b : result value) : result value :=
  if truthy a then Ok a else b.

Definition _send_email (config : value) (record : dict) (automation_name : value)
  : result dict :=
  (let record_data := dict_get_default "data" (VDict []) record in
   email <- get record_data (VStr "email") VNone ;;
   recipient <- py_or email (get config (VStr "to_email") VNone) ;;
   if negb (truthy recipient) then Raise (ValueError "No recipient email found")
   else
     subject_t <- get config (VStr "subject") (VStr "") ;;
     subject <- _replace_template_variables subject_t record ;;
     body_t <- get config (VStr "body") (VStr "") ;;
     body <- _replace_template_variables body_t record ;;
     Ok [("email_sent", VBool true);
         ("recipient", recipient);
         ("subject", VStr subject);
         ("body_length", VInt (Z.of_nat (String.length body)))])%result.

(** [str.upper] on the letters a..z; the other code points stay as they
    are. *)
Definition upper_char (c : ascii) : ascii :=
  let n := nat_of_ascii c in
  if ((97 <=? n) && (n <=? 122))%nat then ascii_of_nat (n - 32) else c.

Fixpoint upper (s : string) : string :=
  match s with
  | EmptyString => EmptyString
  | String c s' => String (upper_char c) (upper s')
  end.

(** [headers.setdefault("Content-Type", "application/json")]. *)
Definition setdefault (k : string) (v : value) (d : dict) : dict :=
  match dict_get k d with
  | Some _ => d
  | None => (d ++ [(k, v)])%list
  end.

Definition _call_webhook (config : value) (record : dict)
    (workspace_id entity_id : string) : M dict :=
  (url <- lift (get config (VStr "url") VNone) ;;
   method_v <- lift (get config (VStr "method") (VStr "POST")) ;;
   method <- lift (match method_v with
                   | VStr m => Ok (upper m)
                   | other => Raise (AttributeError
                       ("'" ++ type_name other ++ "' object has no attribute 'upper'"))
                   end) ;;
   if negb (truthy url) then raise (ValueError "Webhook URL is required")
   else
     now <- utcnow ;;
     let payload :=
       [("workspace_id", VStr workspace_id);
        ("entity_id", VStr entity_id);
        ("record", VDict record);
        ("timestamp", VStr now);
        ("event", VStr "automation_triggered")] in
     headers_v <- lift (get config (VStr "headers") (VDict [])) ;;
     headers <- lift (match headers_v with
                      | VDict h => Ok (setdefault "Content-Type" (VStr "application/json") h)
                      | other => Raise (AttributeError
                          ("'" ++ type_name other ++ "' object has no attribute 'setdefault'"))
                      end) ;;
     if ((method =? "POST") || (method =? "PUT") || (method =? "PATCH"))%string then
       target <- lift (match url with
                       | VStr u => Ok u
                       | _ => Raise (TypeError "Invalid type for url")
                       end) ;;
       response <- http_request method target payload headers ;;
       raise_for_status (fst response) ;;;
       ret [("webhook_called", VBool true);
            ("url", url);
            ("method", VStr method);
            ("status_code", VInt (fst response));
            ("response", VStr (substring 0 500 (snd response)))]
     else raise (ValueError ("Unsupported HTTP method: " ++ method)))%M.

(** [{**current_data, field_name: new_value}] for a key read from the
    configuration. *)
Definition merge_field (current_data field_name new_value : value) : result dict :=
  match current_data with
  | VDict d =>
      match field_name with
      | VStr k => Ok (dict_set k new_value d)
      | VList _ | VDict _ =>
          Raise (TypeError ("unhashable type: '" ++ type_name field_name ++ "'"))
      | _ => Raise (Unmodelled "dictionary key that is not a string")
      end
  | other => Raise (TypeError ("'" ++ type_name other ++ "' object is not a mapping"))
  end.

(** [record["id"]]. *)
Definition subscript (d : dict) (k : string) : result value :=
  match dict_get k d with
  | Some v => Ok v
  | None => Raise (KeyError k)
  end.

Definition _update_field (config : value) (record : dict)
    (workspace_id entity_id : string) : M dict :=
  (field_name <- lift (get config (VStr "field_name") VNone) ;;
   new_value0 <- lift (get config (VStr "new_value") VNone) ;;
   if negb (truthy field_name) then raise (ValueError "Field name is required")
   else
     new_value <- lift (match new_value0 with
                        | VStr _ =>
                            rbind (_replace_template_variables new_value0 record)
                                  (fun s => Ok (VStr s))
                        | _ => Ok new_value0
                        end) ;;
     let current_data := dict_get_default "data" (VDict []) record in
     updated_data <- lift (merge_field current_data field_name new_value) ;;
     id <- lift (subscript record "id") ;;
     update_record_data id updated_data ;;;
     old_value <- lift (get current_data field_name VNone) ;;
     ret [("field_updated", VBool true);
          ("field_name", field_name);
          ("old_value", old_value);
          ("new_value", new_value)])%M.

Definition _create_task (config : value) (record : dict) (workspace_id : string)
  : result dict :=
  (title_t <- get config (VStr "title") (VStr "") ;;
   title <- _replace_template_variables title_t record ;;
   description_t <- get config (VStr "description") (VStr "") ;;
   description <- _replace_template_variables description_t record ;;
   Ok [("task_created", VBool true);
       ("title", VStr title);
       ("description", VStr description)])%result.

(** [AutomationExecutor._log_execution]: the insertion is wrapped in its
    own [try]; a failure is only reported through the logger. *)
Definition _log_execution (automation_id record_id : value) (status : string)
    (res : dict) : M unit :=
  try_except
    (now <- utcnow ;;
     insert_log [("automation_id", automation_id);
                 ("record_id", record_id);
                 ("status", VStr status);
                 ("result", VDict res);
                 ("executed_at", VStr now)])%M
    (fun _ => ret tt).

(* ===================================================================== *)
(** ** Rule executor *)
(* ===================================================================== *)

(** The chain of [if action_type == ...] inside the [try] of [execute]. *)
Definition run_action (action_type action_config : value) (automation_rule record : dict)
    (workspace_id entity_id : string) : M dict :=
  if py_eq action_type (VStr "send_email") then
    lift (_send_email action_config record (dict_get_default "name" VNone automation_rule))
  else if py_eq action_type (VStr "webhook") then
    _call_webhook action_config record workspace_id entity_id
  else if py_eq action_type (VStr "update_field") then
    _update_field action_config record workspace_id entity_id
  else if py_eq action_type (VStr "create_task") then
    lift (_create_task action_config record workspace_id)
  else raise (ValueError ("Unknown action type: " ++ py_str action_type)).

Definition execute (automation_rule record : dict) (workspace_id entity_id : string)
  : M dict :=
  let action_type := dict_get_default "action_type" VNone automation_rule in
  let action_config := dict_get_default "action_config" (VDict []) automation_rule in
  try_except
    (res <- run_action action_type action_config automation_rule record
                       workspace_id entity_id ;;
     _log_execution (dict_get_default "id" VNone automation_rule)
                    (dict_get_default "id" VNone record) "success" res ;;;
     ret [("success", VBool true);
          ("action_type", action_type);
          ("result", VDict res)])%M
    (fun e =>
       (_log_execution (dict_get_default "id" VNone automation_rule)
                       (dict_get_default "id" VNone record) "error"
                       [("error", VStr (exn_str e))] ;;;
        ret [("success", VBool false);
             ("error", VStr (exn_str e))])%M).

(* ===================================================================== *)
(** ** Trigger dispatcher *)
(* ===================================================================== *)

(** The [for automation in automations] loop; [results] is the list
    built so far. *)
Fixpoint run_automations (automations : list dict) (workspace_id entity_id : string)
    (trigger_type : string) (record : dict) (old_data : option dict)
    (results : list dict) : M (list dict) :=
  match automations with
  | [] => ret results
  | automation :: rest =>
      (fires <- lift (check_trigger_conditions
                        (dict_get_default "trigger_config" (VDict []) automation)
                        record old_data trigger_type) ;;
       if (fires : bool) then
         res <- execute automation record workspace_id entity_id ;;
         run_automations rest workspace_id entity_id trigger_type record old_data
                         (results ++ [res])
       else
         run_automations rest workspace_id entity_id trigger_type record old_data
                         results)%M
  end.

Definition trigger_automations (workspace_id entity_id trigger_type : string)
    (record : dict) (old_data : option dict) : M (list dict) :=
  (automations <- select_active_rules workspace_id entity_id trigger_type ;;
   match automations with
   | [] => ret []
   | _ :: _ =>
       run_automations automations workspace_id entity_id trigger_type
                       record old_data []
   end)%M.

(* ===================================================================== *)
(** ** Rule management ([api/automations.py]) *)
(* ===================================================================== *)

(** The request models.  A field of type [Optional[...]] is an [option]. *)
Record TriggerConfig : Type := mkTriggerConfig {
  tc_from_status : option string;
  tc_to_status : option string;
  tc_field_name : option string
}.

Record ActionConfig : Type := mkActionConfig {
  ac_subject : option string;
  ac_body : option string;
  ac_to_email : option string;
  ac_url : option string;
  ac_method : option string;
  ac_headers : option dict;
  ac_field_name : option string;
  ac_new_value : option string;
  ac_title : option string;
  ac_description : option string
}.

(** [TriggerConfig()] and [ActionConfig()]: every field at its default. *)
Definition TriggerConfig_default : TriggerConfig := mkTriggerConfig None None None.
Definition ActionConfig_default : ActionConfig :=
  mkActionConfig None None None None (Some "POST") None None None None None.

Record CreateAutomationRequest : Type := mkCreateAutomationRequest {
  cr_name : string;
  cr_entity_id : string;
  cr_trigger_type : string;
  cr_trigger_config : TriggerConfig;
  cr_action_type : string;
  cr_action_config : ActionConfig;
  cr_is_active : bool
}.

Record UpdateAutomationRequest : Type := mkUpdateAutomationRequest {
  ur_name : option string;
  ur_is_active : option bool;
  ur_trigger_config : option TriggerConfig;
  ur_action_config : option ActionConfig
}.

Definition string_in (s : string) (l : list string) : bool :=
  existsb (String.eqb s) l.

(** The [Field] constraints the framework checks before a handler runs. *)
Definition CreateAutomationRequest_valid (r : CreateAutomationRequest) : bool :=
  ((1 <=? String.length (cr_name r)) && (String.length (cr_name r) <=? 255))%nat
  && string_in (cr_trigger_type r)
       ["status_changed"; "record_created"; "field_updated"; "record_deleted"]
  && string_in (cr_action_type r)
       ["send_email"; "webhook"; "update_field"; "create_task"].

Definition UpdateAutomationRequest_valid (r : UpdateAutomationRequest) : bool :=
  match ur_name r with
  | Some n => ((1 <=? String.length n) && (String.length n <=? 255))%nat
  | None => true
  end.

Definition opt_str (k : string) (o : option string) : dict :=
  match o with
  | Some s => [(k, VStr s)]
  | None => []
  end.

(** [config.dict(exclude_none=True)]. *)
Definition TriggerConfig_dict (c : TriggerConfig) : dict :=
  (opt_str "from_status" (tc_from_status c)
   ++ opt_str "to_status" (tc_to_status c)
   ++ opt_str "field_name" (tc_field_name c))%list.

Definition ActionConfig_dict (c : ActionConfig) : dict :=
  (opt_str "subject" (ac_subject c)
   ++ opt_str "body" (ac_body c)
   ++ opt_str "to_email" (ac_to_email c)
   ++ opt_str "url" (ac_url c)
   ++ opt_str "method" (ac_method c)
   ++ match ac_headers c with Some h => [("headers", VDict h)] | None => [] end
   ++ opt_str "field_name" (ac_field_name c)
   ++ opt_str "new_value" (ac_new_value c)
   ++ opt_str "title" (ac_title c)
   ++ opt_str "description" (ac_description c))%list.

(** [not s] for an optional string. *)
Definition opt_falsy (o : option string) : bool :=
  match o with
  | Some s => (s =? "")%string
  | None => true
  end.

Definition HTTP_400_BAD_REQUEST : Z := 400.
Definition HTTP_404_NOT_FOUND : Z := 404.
Definition HTTP_500_INTERNAL_SERVER_ERROR : Z := 500.

Definition _validate_action_config (action_type : string) (config : ActionConfig)
  : result unit :=
  if (action_type =? "send_email")%string then
    if opt_falsy (ac_subject config) || opt_falsy (ac_body config) then
      Raise (HTTPException HTTP_400_BAD_REQUEST "Email action requires subject and body")
    else Ok tt
  else if (action_type =? "webhook")%string then
    if opt_falsy (ac_url config) then
      Raise (HTTPException HTTP_400_BAD_REQUEST "Webhook action requires URL")
    else if negb (match ac_method config with
                  | Some m => string_in m ["POST"; "PUT"; "PATCH"]
                  | None => false
                  end) then
      Raise (HTTPException HTTP_400_BAD_REQUEST "Invalid HTTP method")
    else Ok tt
  else if (action_type =? "update_field")%string then
    if opt_falsy (ac_field_name config) then
      Raise (HTTPException HTTP_400_BAD_REQUEST "Update field action requires field_name")
    else Ok tt
  else if (action_type =? "create_task")%string then
    if opt_falsy (ac_title config) then
      Raise (HTTPException HTTP_400_BAD_REQUEST "Create task action requires title")
    else Ok tt
  else Ok tt.

(** [SuccessResponse(success=True, message=..., data=...)]. *)
Definition SuccessResponse (message : string) (data : dict) : dict :=
  [("success", VBool true); ("message", VStr message); ("data", VDict data)].

(** [except HTTPException: raise] followed by
    [except Exception as e: raise HTTPException(500, detail=str(e))]. *)
Definition http_errors {A} (body : M A) : M A :=
  try_except body
    (fun e =>
       match e with
       | HTTPException _ _ => raise e
       | _ => raise (HTTPException HTTP_500_INTERNAL_SERVER_ERROR (exn_str e))
       end).

(** Modelled from the spec: the store's query for one entity of a
    workspace; [None] when there is no such row. *)
Definition select_entity (entity_id workspace_id : string) : M (option dict) :=
  (external ;;;
   fun w =>
     (Ok (find (fun row =>
                  py_eq (dict_get_default "id" VNone row) (VStr entity_id)
                  && py_eq (dict_get_default "workspace_id" VNone row) (VStr workspace_id))
               (w_entities w)), w))%M.

(** Modelled from the spec: insertion of a rule; the store assigns the
    row its identifier and answers with the stored row. *)
Definition insert_rule (automation_data : dict) : M (list dict) :=
  (external ;;;
   fun w =>
     let row := dict_set "id" (VStr (hd ""%string (w_ids w))) automation_data in
     (Ok [row], set_rules (w_rules w ++ [row]) (set_ids (tl (w_ids w)) w)))%M.

Definition rule_addressed (automation_id workspace_id : string) (row : dict) : bool :=
  py_eq (dict_get_default "id" VNone row) (VStr automation_id)
  && py_eq (dict_get_default "workspace_id" VNone row) (VStr workspace_id).

(** Modelled from the spec: update of the columns in [update_data] of the
    rules with this identifier in this workspace; the answer holds the
    rows as they are after the update. *)
Definition update_rule (automation_id workspace_id : string) (update_data : dict)
  : M (list dict) :=
  (external ;;;
   fun w =>
     let rows :=
       map (fun row => if rule_addressed automation_id workspace_id row
                       then dict_merge row update_data else row) (w_rules w) in
     (Ok (filter (rule_addressed automation_id workspace_id) rows),
      set_rules rows w))%M.

Definition create_automation (workspace_id : string) (request : CreateAutomationRequest)
  : M dict :=
  http_errors
    (entity <- select_entity (cr_entity_id request) workspace_id ;;
     if negb (match entity with Some row => truthy (VDict row) | None => false end) then
       raise (HTTPException HTTP_404_NOT_FOUND "Entity not found in workspace")
     else
       lift (_validate_action_config (cr_action_type request) (cr_action_config request)) ;;;
       let automation_data :=
         [("workspace_id", VStr workspace_id);
          ("entity_id", VStr (cr_entity_id request));
          ("name", VStr (cr_name request));
          ("trigger_type", VStr (cr_trigger_type request));
          ("trigger_config", VDict (TriggerConfig_dict (cr_trigger_config request)));
          ("action_type", VStr (cr_action_type request));
          ("action_config", VDict (ActionConfig_dict (cr_action_config request)));
          ("is_active", VBool (cr_is_active request))] in
       rows <- insert_rule automation_data ;;
       match rows with
       | [] => raise (HTTPException HTTP_500_INTERNAL_SERVER_ERROR "Failed to create automation")
       | automation :: _ =>
           ret (SuccessResponse "Automation created successfully"
                                [("automation", VDict automation)])
       end)%M.

Definition update_automation (workspace_id automation_id : string)
    (request : UpdateAutomationRequest) : M dict :=
  http_errors
    (let update_data :=
       ((match ur_name request with Some n => [("name", VStr n)] | None => [] end)
        ++ (match ur_is_active request with Some b => [("is_active", VBool b)] | None => [] end)
        ++ (match ur_trigger_config request with
            | Some c => [("trigger_config", VDict (TriggerConfig_dict c))]
            | None => []
            end)
        ++ (match ur_action_config request with
            | Some c => [("action_config", VDict (ActionConfig_dict c))]
            | None => []
            end))%list in
     if negb (truthy (VDict update_data)) then
       raise (HTTPException HTTP_400_BAD_REQUEST "No fields to update")
     else
       rows <- update_rule automation_id workspace_id update_data ;;
       match rows with
       | [] => raise (HTTPException HTTP_404_NOT_FOUND "Automation not found")
       | automation :: _ =>
           ret (SuccessResponse "Automation updated successfully"
                                [("automation", VDict automation)])
       end)%M.

(* ===================================================================== *)
(** ** Vocabulary of the statements *)
(* ===================================================================== *)

(** The four trigger kinds and the four action kinds of the engine. *)
Definition known_trigger_types : list string :=
  ["status_changed"; "field_updated"; "record_created"; "record_deleted"].

Definition known_action_types : list string :=
  ["send_email"; "webhook"; "update_field"; "create_task"].

(** The rule of a status-change trigger: the status changed, and each
    constraint that is set (truthy) is met. *)
Definition status_change_fires (to_status from_status old_status new_status : value)
  : bool :=
  py_ne old_status new_status
  && (negb (truthy to_status) || py_eq new_status to_status)
  && (negb (truthy from_status) || py_eq old_status from_status).

(** The status the evaluator reads from the previous snapshot: [None]
    when there is no snapshot or it is empty. *)
Definition previous_status (old_data : option dict) : value :=
  match old_data with
  | Some (b :: d) => dict_get_default "status" VNone (b :: d)
  | _ => VNone
  end.

(** The rule of a field-update trigger on the field [f]. *)
Definition field_update_fires (f : string) (old_data : option dict) (new_data : dict)
  : bool :=
  match old_data with
  | Some (b :: d) =>
      py_ne (dict_get_default f VNone (b :: d)) (dict_get_default f VNone new_data)
  | _ => false
  end.

(** The lookup that template substitution resolves a token against: the
    data payload of the record, with the keys [id] and [created_at] taken
    from the record itself. *)
Definition template_lookup (record data : dict) (key : string) : option value :=
  if (key =? "created_at")%string then Some (dict_get_default "created_at" VNone record)
  else if (key =? "id")%string then Some (dict_get_default "id" VNone record)
  else dict_get key data.

(** The text a token with the given name is replaced by. *)
Definition token_text (record data : dict) (name : string) : string :=
  match template_lookup record data (strip name) with
  | None | Some VNone => ""
  | Some v => py_str v
  end.

(** [s] starts with two opening braces. *)
Definition starts_open (s : string) : bool :=
  match s with
  | String o1 (String o2 _) => ((o1 =? "{") && (o2 =? "{"))%char
  | _ => false
  end.

(** [s] holds two opening braces in a row. *)
Fixpoint has_open (s : string) : bool :=
  match s with
  | EmptyString => false
  | String c s' => starts_open s || has_open s'
  end.

(** The recipient of a notification: the record's [email] field, or the
    configuration's [to_email] when the record has none. *)
Definition resolve_recipient (data cfg : dict) : value :=
  if truthy (dict_get_default "email" VNone data)
  then dict_get_default "email" VNone data
  else dict_get_default "to_email" VNone cfg.

(** The value an update-field action writes: [new_value], rendered when
    it is a string. *)
Definition rendered_new_value (cfg record data : dict) : value :=
  match dict_get_default "new_value" VNone cfg with
  | VStr t => VStr (re_sub (token_text record data) t)
  | v => v
  end.

(** The next call to an external service goes through. *)
Definition next_call_succeeds (w : world) : bool :=
  match w_faults w with
  | Some _ :: _ => false
  | _ => true
  end.

(** The world once the next external call has consumed its entry of the
    fault plan. *)
Definition after_call (w : world) : world :=
  match w_faults w with
  | [] => w
  | _ :: plan => set_faults plan w
  end.

(** The row [_log_execution] inserts for a rule, a record, a status and a
    result, at the time [now]. *)
Definition log_row (automation_rule record : dict) (status : string) (res : dict)
    (now : string) : dict :=
  [("automation_id", dict_get_default "id" VNone automation_rule);
   ("record_id", dict_get_default "id" VNone record);
   ("status", VStr status);
   ("result", VDict res);
   ("executed_at", VStr now)].

(** What an attempt to write [row] to the execution log leaves behind:
    the row is appended when the store accepts the insertion and the log
    is as before when it does not; rules, record updates and HTTP calls
    are untouched. *)
Definition log_attempted (row : dict) (w1 w2 : world) : Prop :=
  w_logs w2 = (if next_call_succeeds w1 then w_logs w1 ++ [row] else w_logs w1)%list
  /\ w_rules w2 = w_rules w1
  /\ w_record_updates w2 = w_record_updates w1
  /\ w_http_calls w2 = w_http_calls w1.

(** The trigger configuration the dispatcher hands to the evaluator. *)
Definition trigger_config_of (rule : dict) : value :=
  dict_get_default "trigger_config" (VDict []) rule.

(** The rule passes the condition evaluator. *)
Definition rule_fires (record : dict) (old_data : option dict) (trigger_type : string)
    (rule : dict) : bool :=
  match check_trigger_conditions (trigger_config_of rule) record old_data trigger_type with
  | Ok b => b
  | Raise _ => false
  end.

(** Running the executor on each rule of a list, in order. *)
Fixpoint execute_each (rules : list dict) (record : dict)
    (workspace_id entity_id : string) : M (list dict) :=
  match rules with
  | [] => ret []
  | rule :: rest =>
      (envelope <- execute rule record workspace_id entity_id ;;
       envelopes <- execute_each rest record workspace_id entity_id ;;
       ret (envelope :: envelopes))%M
  end.

(** A trigger configuration as the rule schema produces it: a dictionary
    whose [field_name], if any, can be used as a key. *)
Definition well_formed_trigger_config (trigger_config : value) : bool :=
  match trigger_config with
  | VDict d =>
      match dict_get_default "field_name" VNone d with
      | VList _ | VDict _ => false
      | _ => true
      end
  | _ => false
  end.

(** A record whose [data], if any, is a dictionary. *)
Definition well_formed_record (record : dict) : bool :=
  match dict_get_default "data" (VDict []) record with
  | VDict _ => true
  | _ => false
  end.

(** The required-field contract of an action kind: a notification has a
    subject and a body, a webhook a URL and one of the three methods, a
    field update a field name, a task a title. *)
Definition has_field (k : string) (config : value) : bool :=
  match config with
  | VDict d => truthy (dict_get_default k VNone d)
  | _ => false
  end.

Definition required_fields_ok (action_type action_config : value) : bool :=
  match action_type with
  | VStr kind =>
      if (kind =? "send_email")%string then
        has_field "subject" action_config && has_field "body" action_config
      else if (kind =? "webhook")%string then
        has_field "url" action_config
        && match action_config with
           | VDict d =>
               match dict_get_default "method" VNone d with
               | VStr m => string_in m ["POST"; "PUT"; "PATCH"]
               | _ => false
               end
           | _ => false
           end
      else if (kind =? "update_field")%string then has_field "field_name" action_config
      else if (kind =? "create_task")%string then has_field "title" action_config
      else false
  | _ => false
  end.

Definition rule_ok (rule : dict) : bool :=
  required_fields_ok (dict_get_default "action_type" VNone rule)
                     (dict_get_default "action_config" (VDict []) rule).

(** Every stored rule satisfies the contract of its action kind. *)
Definition store_ok (w : world) : bool := forallb rule_ok (w_rules w).

(* ===================================================================== *)
(** ** Sample data *)
(* ===================================================================== *)

Definition sample_record : dict :=
  [("id", VStr "r1");
   ("created_at", VStr "2024-01-01");
   ("data", VDict [("full_name", VStr "Ann"); ("status", VStr "won")])].

Definition sample_rule (id action_type : string) (action_config : dict) (active : bool)
  : dict :=
  [("id", VStr id);
   ("workspace_id", VStr "ws");
   ("entity_id", VStr "e1");
   ("name", VStr id);
   ("trigger_type", VStr "record_created");
   ("trigger_config", VDict []);
   ("action_type", VStr action_type);
   ("action_config", VDict action_config);
   ("is_active", VBool active)].

(** A store with three active rules for record creation (a notification
    without a recipient, a task, a webhook) and an inactive one. *)
Definition sample_world : world :=
  mkWorld
    [sample_rule "a1" "send_email" [("subject", VStr "Hi"); ("body", VStr "Hello")] true;
     sample_rule "a2" "create_task" [("title", VStr "Call {{full_name}}")] true;
     sample_rule "a3" "update_field" [("field_name", VStr "stage")] false;
     sample_rule "a4" "webhook" [("url", VStr "https://example.com/hook");
                                 ("method", VStr "POST")] true]
    [[("id", VStr "e1"); ("workspace_id", VStr "ws")]]
    [] [] [] [(500, "boom"%string)] [] ["a5"%string] "2024-01-01T00:00:00".

(** An update request that carries only a default action configuration. *)
Definition sample_update : UpdateAutomationRequest :=
  mkUpdateAutomationRequest None None None (Some ActionConfig_default).

(* ===================================================================== *)
(** ** Rule management, continued *)
(* ===================================================================== *)

(** Modelled from the spec: the store's query for one rule of a workspace
    by identifier; [None] when there is no such row. *)
Definition select_rule (automation_id workspace_id : string) : M (option dict) :=
  (external ;;;
   fun w => (Ok (find (rule_addressed automation_id workspace_id) (w_rules w)), w))%M.

(** Modelled from the spec: deletion of the rules with this identifier in
    this workspace; the answer holds the deleted rows. *)
Definition delete_rule (automation_id workspace_id : string) : M (list dict) :=
  (external ;;;
   fun w =>
     (Ok (filter (rule_addressed automation_id workspace_id) (w_rules w)),
      set_rules (filter (fun row => negb (rule_addressed automation_id workspace_id row))
                        (w_rules w)) w))%M.

Definition get_automation (workspace_id automation_id : string) : M dict :=
  http_errors
    (found <- select_rule automation_id workspace_id ;;
     match found with
     | Some row =>
         if negb (truthy (VDict row)) then
           raise (HTTPException HTTP_404_NOT_FOUND "Automation not found")
         else
           ret (SuccessResponse "Automation retrieved successfully"
                                [("automation", VDict row)])
     | None => raise (HTTPException HTTP_404_NOT_FOUND "Automation not found")
     end)%M.

Definition delete_automation (workspace_id automation_id : string) : M dict :=
  http_errors
    (rows <- delete_rule automation_id workspace_id ;;
     match rows with
     | [] => raise (HTTPException HTTP_404_NOT_FOUND "Automation not found")
     | _ :: _ => ret (SuccessResponse "Automation deleted successfully" [])
     end)%M.




(* ===================================================================== *)
(** ** Vocabulary of the further statements *)
(* ===================================================================== *)

(** Every stored rule has a trigger configuration the evaluator can
    read. *)
Definition store_wf (w : world) : bool :=
  forallb (fun rule => well_formed_trigger_config (trigger_config_of rule)) (w_rules w).

(** The columns [update_automation] can write. *)
Definition updatable_columns : list string :=
  ["name"; "is_active"; "trigger_config"; "action_config"].

(** Every character of [s] is white space. *)
Fixpoint all_space (s : string) : bool :=
  match s with
  | EmptyString => true
  | String c s' => is_space c && all_space s'
  end.

(** [s] does not start with white space. *)
Definition starts_clean (s : string) : bool :=
  match s with
  | EmptyString => true
  | String c _ => negb (is_space c)
  end.

(** [s] neither starts nor ends with white space. *)
Definition trimmed (s : string) : bool :=
  starts_clean s && starts_clean (string_rev s).

(** The HTTP methods a webhook may use. *)
Definition webhook_methods : list string := ["POST"; "PUT"; "PATCH"].

(** The status is outside 200..299. *)
Definition is_error_status (status_code : Z) : bool :=
  negb ((200 <=? status_code) && (status_code <=? 299)).

(** The dictionary [update_automation] sends to the store. *)
Definition update_data_of (request : UpdateAutomationRequest) : dict :=
  ((match ur_name request with Some n => [("name", VStr n)] | None => [] end)
   ++ (match ur_is_active request with Some b => [("is_active", VBool b)] | None => [] end)
   ++ (match ur_trigger_config request with
       | Some c => [("trigger_config", VDict (TriggerConfig_dict c))]
       | None => []
       end)
   ++ (match ur_action_config request with
       | Some c => [("action_config", VDict (ActionConfig_dict c))]
       | None => []
       end))%list.

(** What an update may change of a row: nothing when the row is not the
    one addressed, and only updatable columns when it is. *)
Definition row_frame (automation_id workspace_id : string) (row row' : dict) : Prop :=
  (rule_addressed automation_id workspace_id row = false -> row' = row)
  /\ (forall k : string,
        string_in k updatable_columns = false -> dict_get k row' = dict_get k row).

Definition sample_create : CreateAutomationRequest :=
  mkCreateAutomationRequest "follow up" "e1" "record_created" TriggerConfig_default
    "create_task"
    (mkActionConfig None None None None (Some "POST") None None None
                    (Some "Call {{full_name}}") None)
    true.

(** An update request that only switches a rule off. *)
Definition sample_deactivate : UpdateAutomationRequest :=
  mkUpdateAutomationRequest None (Some false) None None.

(** The rules as an update leaves them. *)
Definition updated_rows (automation_id workspace_id : string)
    (request : UpdateAutomationRequest) (rules : list dict) : list dict :=
  map (fun row => if rule_addressed automation_id workspace_id row
                  then dict_merge row (update_data_of request) else row) rules.

(** A template can be rendered on a record: it is falsy, or it is a
    string and the data of the record is a dictionary. *)
Definition renderable (template : value) (record : dict) : bool :=
  negb (truthy template)
  || (match template with VStr _ => true | _ => false end && well_formed_record record).




(* ===================================================================== *)
(** * Properties *)
(* ===================================================================== *)

(** ** Dictionaries *)

Lemma dict_get_set_eq (k : string) (v : value) (d : dict) :
  dict_get k (dict_set k v d) = Some v.
Proof.
  induction d as [|[k' v'] d IH]; simpl.
  - now rewrite String.eqb_refl.
  - destruct (String.eqb k k') eqn:E; simpl.
    + now rewrite String.eqb_refl.
    + now rewrite E.
Qed.

Lemma dict_get_set_ne (k k' : string) (v : value) (d : dict) :
  k <> k' -> dict_get k (dict_set k' v d) = dict_get k d.
Proof.
  intros Hne.
  assert (Hkk : String.eqb k k' = false) by now apply String.eqb_neq.
  induction d as [|[k0 v0] d IH]; simpl.
  - now rewrite Hkk.
  - destruct (String.eqb k' k0) eqn:E; simpl.
    + apply String.eqb_eq in E; subst k0. now rewrite Hkk.
    + now rewrite IH.
Qed.

Lemma dict_get_remove_eq (k : string) (d : dict) :
  dict_get k (dict_remove k d) = None.
Proof.
  induction d as [|[k0 v0] d IH]; simpl; trivial.
  destruct (String.eqb k k0) eqn:E; simpl; trivial.
  now rewrite E.
Qed.

Lemma dict_get_remove_ne (k k' : string) (d : dict) :
  k <> k' -> dict_get k (dict_remove k' d) = dict_get k d.
Proof.
  intros Hne.
  induction d as [|[k0 v0] d IH]; simpl; trivial.
  destruct (String.eqb k' k0) eqn:E; simpl.
  - apply String.eqb_eq in E; subst k0.
    apply String.eqb_neq in Hne. now rewrite Hne.
  - now rewrite IH.
Qed.

Lemma py_eq_None_falsy (v : value) : py_eq VNone v = true -> truthy v = false.
Proof. destruct v; simpl; now intros. Qed.

(** ** Condition evaluator *)

(** C8.  Whatever the trigger configuration, the new record and the old
    data are, the evaluator answers [True] for the kinds [record_created]
    and [record_deleted], and also for every trigger kind it does not
    know. *)
Theorem unconditional_trigger_kinds
    (trigger_config : value) (record : dict) (old_data : option dict) :
  check_trigger_conditions trigger_config record old_data "record_created" = Ok true
  /\ check_trigger_conditions trigger_config record old_data "record_deleted" = Ok true
  /\ forall trigger_type : string,
       string_in trigger_type known_trigger_types = false ->
       check_trigger_conditions trigger_config record old_data trigger_type = Ok true.
Proof.
  split; [reflexivity | split; [reflexivity |]].
  intros t Hunknown. unfold check_trigger_conditions.
  unfold string_in, known_trigger_types in Hunknown. simpl in Hunknown.
  apply orb_false_elim in Hunknown as [H1 Hunknown].
  apply orb_false_elim in Hunknown as [H2 _].
  rewrite H1, H2.
  destruct (String.eqb t "record_created"); [reflexivity|].
  destruct (String.eqb t "record_deleted"); reflexivity.
Qed.

Lemma unconditional_trigger_kinds_witness :
  check_trigger_conditions (VList [VInt 3]) [("data", VNone)] None "record_archived"
  = Ok true.
Proof.
  apply (proj2 (proj2 (unconditional_trigger_kinds
                         (VList [VInt 3]) [("data", VNone)] None))).
  reflexivity.
Defined.

(** C1, the claim as stated fails: a status trigger with
    [to_status = "won"] and no [from_status] fires on a record whose
    status is ["won"] although no old data is given. *)
Lemma status_trigger_fires_without_old_data :
  check_trigger_conditions
    (VDict [("to_status", VStr "won")])
    [("id", VStr "r1"); ("data", VDict [("status", VStr "won")])]
    None "status_changed" = Ok true.
Proof. reflexivity. Qed.

(** C1, amended.  A status-change trigger fires iff the status changed
    and each of [to_status], [from_status] that is set (present and not
    empty) equals the new, respectively the old status.  The old status is
    [None] when the old data is absent or empty, so that without old data
    the trigger fires exactly when the new status is not [None], the
    [to_status] constraint is met and no [from_status] is set. *)
Theorem status_changed_fires_iff
    (cfg record new_data : dict) (old_data : option dict) :
  dict_get_default "data" (VDict []) record = VDict new_data ->
  let to_status := dict_get_default "to_status" VNone cfg in
  let from_status := dict_get_default "from_status" VNone cfg in
  let new_status := dict_get_default "status" VNone new_data in
  check_trigger_conditions (VDict cfg) record old_data "status_changed"
  = Ok (status_change_fires to_status from_status (previous_status old_data) new_status)
  /\ (old_data = None ->
      check_trigger_conditions (VDict cfg) record old_data "status_changed"
      = Ok (py_ne VNone new_status
            && (negb (truthy to_status) || py_eq new_status to_status)
            && negb (truthy from_status))).
Proof.
  intros Hdata to_status from_status new_status.
  assert (Hmain :
    check_trigger_conditions (VDict cfg) record old_data "status_changed"
    = Ok (status_change_fires to_status from_status (previous_status old_data) new_status)).
  { unfold check_trigger_conditions. rewrite Hdata. simpl.
    fold to_status from_status new_status.
    assert (Hold : old_status_of old_data = previous_status old_data).
    { destruct old_data as [[|b d]|]; reflexivity. }
    rewrite Hold. unfold status_change_fires, py_ne.
    destruct (truthy to_status); destruct (py_eq new_status to_status);
      destruct (truthy from_status);
      destruct (py_eq (previous_status old_data) from_status);
      destruct (py_eq (previous_status old_data) new_status); reflexivity. }
  split; [exact Hmain|].
  intros ->. rewrite Hmain. unfold status_change_fires. simpl previous_status.
  f_equal. f_equal.
  destruct (truthy from_status) eqn:Hf; simpl; trivial.
  destruct (py_eq VNone from_status) eqn:He; trivial.
  apply py_eq_None_falsy in He. congruence.
Qed.

Lemma status_changed_fires_iff_witness :
  check_trigger_conditions
    (VDict [("from_status", VStr "new"); ("to_status", VStr "qualified")])
    [("data", VDict [("status", VStr "won")])]
    (Some [("status", VStr "new")]) "status_changed" = Ok false.
Proof.
  apply (proj1 (status_changed_fires_iff
                  [("from_status", VStr "new"); ("to_status", VStr "qualified")]
                  [("data", VDict [("status", VStr "won")])]
                  [("status", VStr "won")]
                  (Some [("status", VStr "new")]) eq_refl)).
Defined.

(** C6, the claim as stated fails: with [field_name = "priority"], old
    data that is present but empty, and new data that sets the field, the
    old and the new value of the field differ and yet the trigger does not
    fire. *)
Lemma field_trigger_silent_on_empty_old_data :
  py_ne (dict_get_default "priority" VNone [])
        (dict_get_default "priority" VNone [("priority", VStr "high")]) = true
  /\ check_trigger_conditions
       (VDict [("field_name", VStr "priority")])
       [("id", VStr "r1"); ("data", VDict [("priority", VStr "high")])]
       (Some []) "field_updated" = Ok false.
Proof. split; reflexivity. Qed.

(** C6, amended.  For a field-update trigger: when [field_name] is
    absent the rule fires on any update; when [field_name] is a non-empty
    string the rule fires iff the old data is present and not empty and
    the old and the new value of that field differ; so it does not fire
    when the old data is absent or empty, or when the field is unchanged. *)
Theorem field_updated_fires_iff
    (cfg record new_data : dict) (old_data : option dict) :
  (dict_get "field_name" cfg = None ->
   check_trigger_conditions (VDict cfg) record old_data "field_updated" = Ok true)
  /\ (forall f : string,
        dict_get "field_name" cfg = Some (VStr f) -> f <> ""%string ->
        dict_get_default "data" (VDict []) record = VDict new_data ->
        check_trigger_conditions (VDict cfg) record old_data "field_updated"
        = Ok (field_update_fires f old_data new_data)
        /\ (old_data = None \/ old_data = Some [] ->
            check_trigger_conditions (VDict cfg) record old_data "field_updated"
            = Ok false)
        /\ (forall d : dict,
              old_data = Some d ->
              py_eq (dict_get_default f VNone d) (dict_get_default f VNone new_data) = true ->
              check_trigger_conditions (VDict cfg) record old_data "field_updated"
              = Ok false)).
Proof.
  split.
  - intros Habs. unfold check_trigger_conditions. simpl.
    unfold dict_get_default. now rewrite Habs.
  - intros f Hf Hne Hdata.
    assert (Hmain :
      check_trigger_conditions (VDict cfg) record old_data "field_updated"
      = Ok (field_update_fires f old_data new_data)).
    { assert (Hfn : dict_get_default "field_name" VNone cfg = VStr f)
        by (unfold dict_get_default; now rewrite Hf).
      unfold check_trigger_conditions. rewrite Hdata. simpl.
      rewrite !Hfn. simpl.
      apply String.eqb_neq in Hne. rewrite Hne. simpl.
      destruct old_data as [[|b d]|]; reflexivity. }
    split; [exact Hmain | split].
    + intros [-> | ->]; rewrite Hmain; reflexivity.
    + intros d -> Heq. rewrite Hmain.
      destruct d as [|b d]; [reflexivity|].
      unfold field_update_fires, py_ne. now rewrite Heq.
Qed.

Lemma field_updated_fires_iff_witness :
  check_trigger_conditions
    (VDict [("field_name", VStr "priority")])
    [("data", VDict [("priority", VStr "high")])]
    (Some [("priority", VStr "low")]) "field_updated" = Ok true.
Proof.
  apply (proj1 (proj2 (field_updated_fires_iff
                         [("field_name", VStr "priority")]
                         [("data", VDict [("priority", VStr "high")])]
                         [("priority", VStr "high")]
                         (Some [("priority", VStr "low")]))
                      "priority"%string eq_refl
                      ltac:(discriminate) eq_refl)).
Defined.

(** C10.  Falsy configuration values count as absent constraints: a
    status-change trigger whose [to_status] (or [from_status]) is the empty
    string decides exactly as the same configuration without that key, and
    a field-update trigger whose [field_name] is the empty string fires on
    every update, with or without old data. *)
Theorem falsy_config_is_absent
    (cfg record : dict) (old_data : option dict) :
  (dict_get "to_status" cfg = Some (VStr "") ->
   check_trigger_conditions (VDict cfg) record old_data "status_changed"
   = check_trigger_conditions (VDict (dict_remove "to_status" cfg)) record old_data
       "status_changed")
  /\ (dict_get "from_status" cfg = Some (VStr "") ->
      check_trigger_conditions (VDict cfg) record old_data "status_changed"
      = check_trigger_conditions (VDict (dict_remove "from_status" cfg)) record old_data
          "status_changed")
  /\ (dict_get "field_name" cfg = Some (VStr "") ->
      check_trigger_conditions (VDict cfg) record old_data "field_updated" = Ok true).
Proof.
  split; [|split].
  - intros H. unfold check_trigger_conditions. simpl.
    unfold dict_get_default.
    rewrite H, dict_get_remove_eq.
    rewrite (dict_get_remove_ne "from_status" "to_status") by discriminate.
    reflexivity.
  - intros H. unfold check_trigger_conditions. simpl.
    unfold dict_get_default.
    rewrite H, dict_get_remove_eq.
    rewrite (dict_get_remove_ne "to_status" "from_status") by discriminate.
    reflexivity.
  - intros H. unfold check_trigger_conditions. simpl.
    unfold dict_get_default. now rewrite H.
Qed.

Lemma falsy_config_is_absent_witness :
  check_trigger_conditions
    (VDict [("to_status", VStr ""); ("field_name", VStr "")])
    [("data", VDict [("status", VStr "won")])]
    (Some [("status", VStr "new")]) "status_changed"
  = check_trigger_conditions
      (VDict [("field_name", VStr "")])
      [("data", VDict [("status", VStr "won")])]
      (Some [("status", VStr "new")]) "status_changed"
  /\ check_trigger_conditions
       (VDict [("to_status", VStr ""); ("field_name", VStr "")])
       [("data", VDict [("status", VStr "won")])]
       None "field_updated" = Ok true.
Proof.
  split.
  - apply (proj1 (falsy_config_is_absent
                    [("to_status", VStr ""); ("field_name", VStr "")]
                    [("data", VDict [("status", VStr "won")])]
                    (Some [("status", VStr "new")])) eq_refl).
  - apply (proj2 (proj2 (falsy_config_is_absent
                    [("to_status", VStr ""); ("field_name", VStr "")]
                    [("data", VDict [("status", VStr "won")])]
                    None)) eq_refl).
Defined.

(** ** Template substitution *)

Section TemplateSubstitution.

#[local] Arguments Ascii.eqb : simpl never.

Lemma append_assoc (a b c : string) : ((a ++ b) ++ c = a ++ (b ++ c))%string.
Proof. induction a as [|x a IH]; simpl; [reflexivity | now rewrite IH]. Qed.

Lemma append_nil_r (a : string) : (a ++ "")%string = a.
Proof. induction a as [|x a IH]; simpl; [reflexivity | now rewrite IH]. Qed.

Lemma length_append (a b : string) :
  String.length (a ++ b) = (String.length a + String.length b)%nat.
Proof. induction a as [|x a IH]; simpl; [reflexivity | now rewrite IH]. Qed.

Lemma re_sub_from_0 (repl : string -> string) (c : ascii) (s : string) :
  re_sub_from repl 0 (String c s)
  = match match_token (String c s) with
    | Some (grp, len) => (repl grp ++ re_sub_from repl (len - 1) s)%string
    | None => String c (re_sub_from repl 0 s)
    end.
Proof. reflexivity. Qed.

Lemma match_token_not_open (s : string) :
  starts_open s = false -> match_token s = None.
Proof.
  destruct s as [|o1 [|o2 rest]]; simpl; trivial.
  now intros ->.
Qed.


Lemma re_sub_prefix (repl : string -> string) (pre s : string) :
  has_open (pre ++ "{") = false ->
  re_sub_from repl 0 (pre ++ s) = (pre ++ re_sub_from repl 0 s)%string.
Proof.
  induction pre as [|c pre IH]; [reflexivity|].
  intros H. change (starts_open (String c (pre ++ "{")) || has_open (pre ++ "{") = false) in H.
  apply orb_false_elim in H as [H1 H2].
  simpl append. rewrite re_sub_from_0.
  assert (Hs : starts_open (String c (pre ++ s)) = false).
  { destruct pre as [|c' pre]; simpl in *.
    - destruct s as [|x s]; trivial.
      rewrite andb_true_r in H1. now rewrite H1.
    - exact H1. }
  rewrite (match_token_not_open _ Hs), IH; trivial.
Qed.

Lemma span_not_close_stop (name rest : string) :
  string_mem "}" name = false ->
  span_not_close (name ++ String "}" rest) = (name, String "}" rest).
Proof.
  induction name as [|c name IH]; simpl; [reflexivity|].
  intros H. apply orb_false_elim in H as [H1 H2].
  rewrite Ascii.eqb_sym, H1, IH; trivial.
Qed.

Lemma match_token_hit (name post : string) :
  name <> ""%string -> string_mem "}" name = false ->
  match_token ("{{" ++ name ++ "}}" ++ post)
  = Some (name, (4 + String.length name)%nat).
Proof.
  intros Hne Hmem.
  change ("{{" ++ name ++ "}}" ++ post)%string
    with (String "{" (String "{" (name ++ String "}" (String "}" post)))).
  unfold match_token. simpl andb. cbv iota.
  rewrite span_not_close_stop by exact Hmem.
  destruct name as [|c name]; [congruence|]. reflexivity.
Qed.

Lemma re_sub_from_skip (repl : string -> string) (a b : string) :
  re_sub_from repl (String.length a) (a ++ b) = re_sub_from repl 0 b.
Proof. induction a as [|c a IH]; simpl; [reflexivity | exact IH]. Qed.

Lemma re_sub_token (repl : string -> string) (pre name post : string) :
  has_open (pre ++ "{") = false ->
  name <> ""%string -> string_mem "}" name = false ->
  re_sub repl (pre ++ "{{" ++ name ++ "}}" ++ post)
  = (pre ++ repl name ++ re_sub repl post)%string.
Proof.
  intros Hpre Hne Hmem. unfold re_sub.
  rewrite re_sub_prefix by exact Hpre. f_equal.
  pose proof (match_token_hit name post Hne Hmem) as Hhit.
  change ("{{" ++ name ++ "}}" ++ post)%string
    with (String "{" ("{" ++ name ++ "}}" ++ post)) in *.
  rewrite re_sub_from_0, Hhit. f_equal.
  replace (4 + String.length name - 1)%nat
    with (String.length ("{" ++ name ++ "}}")%string)
    by (simpl; rewrite length_append; simpl; lia).
  replace ("{" ++ name ++ "}}" ++ post)%string
    with (("{" ++ name ++ "}}") ++ post)%string
    by (simpl; now rewrite append_assoc).
  apply re_sub_from_skip.
Qed.

Lemma replace_var_token_text (record data : dict) (name : string) :
  replace_var (all_data_of data record) name = token_text record data name.
Proof.
  unfold replace_var, token_text, template_lookup, all_data_of, dict_get_default.
  destruct (String.eqb_spec (strip name) "created_at") as [->|Hc].
  - rewrite dict_get_set_eq. reflexivity.
  - rewrite dict_get_set_ne by exact Hc.
    destruct (String.eqb_spec (strip name) "id") as [->|Hi].
    + rewrite dict_get_set_eq. reflexivity.
    + rewrite dict_get_set_ne by exact Hi.
      destruct (dict_get (strip name) data) as [[]|]; reflexivity.
Qed.

Lemma re_sub_from_ext (r1 r2 : string -> string) :
  (forall g : string, r1 g = r2 g) ->
  forall (s : string) (n : nat), re_sub_from r1 n s = re_sub_from r2 n s.
Proof.
  intros Hext s. induction s as [|c s IH]; intros n; [reflexivity|].
  destruct n as [|n].
  - rewrite !re_sub_from_0.
    destruct (match_token (String c s)) as [[grp len]|]; now rewrite ?Hext, IH.
  - simpl. apply IH.
Qed.

Lemma render_string (t : string) (record data : dict) :
  dict_get_default "data" (VDict []) record = VDict data ->
  _replace_template_variables (VStr t) record
  = Ok (re_sub (token_text record data) t).
Proof.
  intros Hdata. unfold _replace_template_variables. rewrite Hdata.
  destruct t as [|c t]; [reflexivity|].
  change (negb (truthy (VStr (String c t)))) with false. cbv iota.
  f_equal. unfold re_sub.
  apply re_sub_from_ext. intros g. apply replace_var_token_text.
Qed.


End TemplateSubstitution.


Example render_missing :
  _replace_template_variables (VStr "{{missing}}")
    [("id", VStr "r1"); ("data", VDict [("full_name", VStr "Ann")])]
  = Ok ""%string.
Proof. reflexivity. Qed.

Example render_overlapping_braces :
  _replace_template_variables (VStr "{{ id }}|{{{a}}|{{a}{{full_name}}z{{}}")
    [("id", VStr "r1"); ("data", VDict [("full_name", VStr "Ann"); ("id", VInt 7)])]
  = Ok "r1||{{a}Annz{{}}"%string.
Proof. reflexivity. Qed.

(** ** Action dispatchers *)

(** C9.  For a record whose data is a dictionary and a notification
    configuration whose subject and body are strings (or absent): the
    recipient is the record's [email], or else the configuration's
    [to_email]; without a recipient the action raises; otherwise it
    succeeds with the rendered subject, the length of the rendered body
    and the resolved recipient. *)
Theorem send_email_spec
    (cfg record data : dict) (automation_name : value) (subject body : string) :
  dict_get_default "data" (VDict []) record = VDict data ->
  dict_get_default "subject" (VStr "") cfg = VStr subject ->
  dict_get_default "body" (VStr "") cfg = VStr body ->
  (truthy (resolve_recipient data cfg) = false ->
   _send_email (VDict cfg) record automation_name
   = Raise (ValueError "No recipient email found"))
  /\ (truthy (resolve_recipient data cfg) = true ->
      exists rendered_subject rendered_body : string,
        _replace_template_variables (VStr subject) record = Ok rendered_subject
        /\ _replace_template_variables (VStr body) record = Ok rendered_body
        /\ _send_email (VDict cfg) record automation_name
           = Ok [("email_sent", VBool true);
                 ("recipient", resolve_recipient data cfg);
                 ("subject", VStr rendered_subject);
                 ("body_length", VInt (Z.of_nat (String.length rendered_body)))]).
Proof.
  intros Hdata Hsubject Hbody.
  assert (Hrec : rbind (get (VDict data) (VStr "email") VNone)
                   (fun email => py_or email (get (VDict cfg) (VStr "to_email") VNone))
                 = Ok (resolve_recipient data cfg)).
  { unfold get, rbind, py_or, resolve_recipient.
    destruct (truthy (dict_get_default "email" VNone data)); reflexivity. }
  split; intros Ht.
  - unfold _send_email. rewrite Hdata.
    unfold get, rbind, py_or in *.
    destruct (truthy (dict_get_default "email" VNone data)) eqn:He.
    + injection Hrec as Hrec. rewrite Hrec, Ht. reflexivity.
    + injection Hrec as Hrec. rewrite Hrec, Ht. reflexivity.
  - exists (re_sub (token_text record data) subject),
           (re_sub (token_text record data) body).
    rewrite !(render_string _ record data Hdata).
    split; [reflexivity | split; [reflexivity|]].
    unfold _send_email. rewrite Hdata.
    unfold get, rbind, py_or in *.
    rewrite Hsubject, Hbody, !(render_string _ record data Hdata).
    destruct (truthy (dict_get_default "email" VNone data)) eqn:He;
      injection Hrec as Hrec; rewrite Hrec, Ht; reflexivity.
Qed.

Lemma send_email_spec_witness :
  exists rendered_subject rendered_body : string,
    _replace_template_variables (VStr "Welcome {{full_name}}") sample_record
    = Ok rendered_subject
    /\ _replace_template_variables (VStr "Hi") sample_record = Ok rendered_body
    /\ _send_email
         (VDict [("subject", VStr "Welcome {{full_name}}"); ("body", VStr "Hi");
                 ("to_email", VStr "sales@example.com")])
         sample_record (VStr "welcome")
       = Ok [("email_sent", VBool true);
             ("recipient", VStr "sales@example.com");
             ("subject", VStr rendered_subject);
             ("body_length", VInt (Z.of_nat (String.length rendered_body)))].
Proof.
  exact (proj2 (send_email_spec
                  [("subject", VStr "Welcome {{full_name}}"); ("body", VStr "Hi");
                   ("to_email", VStr "sales@example.com")]
                  sample_record
                  [("full_name", VStr "Ann"); ("status", VStr "won")]
                  (VStr "welcome")
                  "Welcome {{full_name}}" "Hi" eq_refl eq_refl eq_refl) eq_refl).
Defined.

Example send_email_to_config_address :
  _send_email
    (VDict [("subject", VStr "Welcome {{full_name}}"); ("body", VStr "Hi");
            ("to_email", VStr "sales@example.com")])
    sample_record (VStr "welcome")
  = Ok [("email_sent", VBool true);
        ("recipient", VStr "sales@example.com");
        ("subject", VStr "Welcome Ann");
        ("body_length", VInt 2)].
Proof. vm_compute. reflexivity. Qed.

Lemma external_ok (w : world) :
  next_call_succeeds w = true -> external w = (Ok tt, after_call w).
Proof.
  unfold next_call_succeeds, external, after_call.
  destruct (w_faults w) as [|[msg|] plan]; (discriminate || reflexivity).
Qed.


(** C7.  An update-field action without a field name raises and leaves
    the world as it is.  With a field name [f], on a record that has an
    identifier and a dictionary as data, and a store that accepts the
    write, the action sends exactly one update, for that identifier, whose
    payload is the record's data with [f] bound to the rendered new value;
    every other key of the payload keeps the value it has in the record's
    data. *)
Theorem update_field_persists
    (cfg record : dict) (workspace_id entity_id : string) (w : world) :
  (truthy (dict_get_default "field_name" VNone cfg) = false ->
   _update_field (VDict cfg) record workspace_id entity_id w
   = (Raise (ValueError "Field name is required"), w))
  /\ (forall (f : string) (data : dict) (rid : value),
        dict_get "field_name" cfg = Some (VStr f) -> f <> ""%string ->
        dict_get_default "data" (VDict []) record = VDict data ->
        dict_get "id" record = Some rid ->
        next_call_succeeds w = true ->
        let new_value := rendered_new_value cfg record data in
        let persisted := dict_set f new_value data in
        exists (res : dict) (w' : world),
          _update_field (VDict cfg) record workspace_id entity_id w = (Ok res, w')
          /\ w_record_updates w' = (w_record_updates w ++ [(rid, persisted)])%list
          /\ dict_get f persisted = Some new_value
          /\ (forall k : string, k <> f -> dict_get k persisted = dict_get k data)).
Proof.
  split.
  - intros Hfalsy. unfold _update_field, bind, lift, get.
    now rewrite Hfalsy.
  - intros f data rid Hf Hne Hdata Hid Hnext new_value persisted.
    assert (Hfn : dict_get_default "field_name" VNone cfg = VStr f)
      by (unfold dict_get_default; now rewrite Hf).
    assert (Htruthy : truthy (VStr f) = true)
      by (simpl; apply String.eqb_neq in Hne; now rewrite Hne).
    assert (Hrender :
      match dict_get_default "new_value" VNone cfg with
      | VStr _ =>
          rbind (_replace_template_variables
                   (dict_get_default "new_value" VNone cfg) record)
                (fun s => Ok (VStr s))
      | _ => Ok (dict_get_default "new_value" VNone cfg)
      end = Ok new_value).
    { unfold new_value, rendered_new_value.
      destruct (dict_get_default "new_value" VNone cfg); try reflexivity.
      now rewrite (render_string _ record data Hdata). }
    unfold _update_field, bind, lift, get, update_record_data, ret.
    rewrite Hfn, Htruthy, Hrender, Hdata. simpl negb. cbv iota.
    unfold merge_field, subscript. rewrite Hid.
    cbn [negb]. cbv beta iota. unfold bind. rewrite (external_ok w Hnext).
    eexists. eexists. split; [reflexivity|].
    split.
    + unfold after_call. destruct (w_faults w); reflexivity.
    + split.
      * apply dict_get_set_eq.
      * intros k Hk. now apply dict_get_set_ne.
Qed.

Lemma update_field_persists_witness :
  exists (res : dict) (w' : world),
    _update_field
      (VDict [("field_name", VStr "greeting"); ("new_value", VStr "Hi {{full_name}}")])
      [("id", VStr "r1"); ("data", VDict [("full_name", VStr "Ann")])]
      "ws" "e1" (mkWorld [] [] [] [] [] [] [] [] "2024-01-01T00:00:00")
    = (Ok res, w')
    /\ w_record_updates w'
       = [(VStr "r1", [("full_name", VStr "Ann"); ("greeting", VStr "Hi Ann")])].
Proof.
  destruct (proj2 (update_field_persists
                     [("field_name", VStr "greeting"); ("new_value", VStr "Hi {{full_name}}")]
                     [("id", VStr "r1"); ("data", VDict [("full_name", VStr "Ann")])]
                     "ws" "e1" (mkWorld [] [] [] [] [] [] [] [] "2024-01-01T00:00:00"))
                  "greeting"%string [("full_name", VStr "Ann")] (VStr "r1")
                  eq_refl ltac:(discriminate) eq_refl eq_refl eq_refl)
    as (res & w' & Hrun & Hupd & _).
  exists res, w'. split; [exact Hrun | exact Hupd].
Defined.

(** ** Rule executor *)

Lemma log_execution_spec
    (automation_rule record : dict) (status : string) (res : dict) (w : world) :
  exists w2 : world,
    _log_execution (dict_get_default "id" VNone automation_rule)
                   (dict_get_default "id" VNone record) status res w = (Ok tt, w2)
    /\ log_attempted (log_row automation_rule record status res (w_now w)) w w2.
Proof.
  unfold _log_execution, try_except, bind, utcnow, insert_log, bind, external,
    log_attempted, next_call_succeeds, log_row, ret.
  destruct (w_faults w) as [|[msg|] plan] eqn:Hplan; simpl;
    eexists; (split; [reflexivity|]); simpl; rewrite ?Hplan; auto.
Qed.

Lemma execute_cases
    (automation_rule record : dict) (workspace_id entity_id : string) (w : world) :
  let action_type := dict_get_default "action_type" VNone automation_rule in
  let action_config := dict_get_default "action_config" (VDict []) automation_rule in
  let attempt := run_action action_type action_config automation_rule record
                            workspace_id entity_id w in
  exists (envelope : dict) (w2 : world),
    execute automation_rule record workspace_id entity_id w = (Ok envelope, w2)
    /\ match fst attempt with
       | Ok res =>
           envelope = [("success", VBool true);
                       ("action_type", action_type);
                       ("result", VDict res)]
           /\ log_attempted
                (log_row automation_rule record "success" res (w_now (snd attempt)))
                (snd attempt) w2
       | Raise e =>
           envelope = [("success", VBool false);
                       ("error", VStr (exn_str e))]
           /\ log_attempted
                (log_row automation_rule record "error"
                         [("error", VStr (exn_str e))] (w_now (snd attempt)))
                (snd attempt) w2
       end.
Proof.
  intros action_type action_config attempt.
  unfold execute, try_except. unfold bind at 1.
  fold action_type action_config. fold attempt.
  destruct attempt as [[res|e] w1]; simpl fst; simpl snd.
  - destruct (log_execution_spec automation_rule record "success" res w1)
      as (w2 & Hlog & Hatt).
    unfold bind. rewrite Hlog. unfold ret.
    exists [("success", VBool true); ("action_type", action_type); ("result", VDict res)], w2.
    auto.
  - destruct (log_execution_spec automation_rule record "error"
                [("error", VStr (exn_str e))] w1) as (w2 & Hlog & Hatt).
    unfold bind. rewrite Hlog. unfold ret.
    exists [("success", VBool false); ("error", VStr (exn_str e))], w2.
    auto.
Qed.

(** C3, the claim as stated fails: when the dispatcher raises, the
    envelope that comes back holds [success] and [error] and no
    [action_type]. *)
Lemma failure_envelope_lacks_action_type :
  let envelope :=
    fst (execute
           [("id", VStr "a1"); ("name", VStr "notify");
            ("action_type", VStr "send_email");
            ("action_config", VDict [("subject", VStr "Hi"); ("body", VStr "Hello")])]
           [("id", VStr "r1"); ("data", VDict [("full_name", VStr "Ann")])]
           "ws" "e1" (mkWorld [] [] [] [] [] [] [] [] "2024-01-01T00:00:00")) in
  envelope = Ok [("success", VBool false);
                 ("error", VStr "No recipient email found")]
  /\ rbind envelope (fun d => Ok (dict_get "action_type" d)) = Ok None.
Proof. split; reflexivity. Qed.

(** C3, amended.  [execute] never raises.  When the dispatcher returns a
    result, the envelope is [{success: True, action_type, result}] and a
    log row with status [success] and that result is written; when the
    dispatcher raises, an unknown action type included, the envelope is
    [{success: False, error}] with the string of the error, without
    [action_type], and a log row with status [error] carrying that string
    is written.  A log insertion that fails is swallowed: the log stays as
    it was and the envelope is the same. *)
Theorem execute_contract
    (automation_rule record : dict) (workspace_id entity_id : string) (w : world) :
  let action_type := dict_get_default "action_type" VNone automation_rule in
  let action_config := dict_get_default "action_config" (VDict []) automation_rule in
  let attempt := run_action action_type action_config automation_rule record
                            workspace_id entity_id w in
  (exists (envelope : dict) (w2 : world),
     execute automation_rule record workspace_id entity_id w = (Ok envelope, w2)
     /\ match fst attempt with
        | Ok res =>
            envelope = [("success", VBool true);
                        ("action_type", action_type);
                        ("result", VDict res)]
            /\ log_attempted
                 (log_row automation_rule record "success" res (w_now (snd attempt)))
                 (snd attempt) w2
        | Raise e =>
            envelope = [("success", VBool false);
                        ("error", VStr (exn_str e))]
            /\ log_attempted
                 (log_row automation_rule record "error"
                          [("error", VStr (exn_str e))] (w_now (snd attempt)))
                 (snd attempt) w2
        end)
  /\ (forallb (fun kind => negb (py_eq action_type (VStr kind))) known_action_types = true ->
      attempt = (Raise (ValueError ("Unknown action type: " ++ py_str action_type)), w)).
Proof.
  intros action_type action_config attempt. split.
  - apply execute_cases.
  - intros Hunknown. unfold known_action_types in Hunknown. simpl in Hunknown.
    repeat (apply andb_prop in Hunknown as [?H Hunknown]).
    repeat match goal with
           | H : negb _ = true |- _ => apply negb_true_iff in H
           end.
    unfold attempt, run_action.
    now rewrite H, H0, H1, H2.
Qed.

Lemma execute_contract_witness :
  run_action (VStr "archive") (VDict []) [("action_type", VStr "archive")]
             [("id", VStr "r1")] "ws" "e1"
             (mkWorld [] [] [] [] [] [] [] [] "2024-01-01T00:00:00")
  = (Raise (ValueError "Unknown action type: archive"),
     mkWorld [] [] [] [] [] [] [] [] "2024-01-01T00:00:00").
Proof.
  apply (proj2 (execute_contract [("action_type", VStr "archive")]
                  [("id", VStr "r1")] "ws" "e1"
                  (mkWorld [] [] [] [] [] [] [] [] "2024-01-01T00:00:00")) eq_refl).
Defined.

(** ** Trigger dispatcher *)

Lemma check_trigger_conditions_total
    (trigger_config : value) (record : dict) (old_data : option dict)
    (trigger_type : string) :
  well_formed_record record = true ->
  well_formed_trigger_config trigger_config = true ->
  exists b : bool,
    check_trigger_conditions trigger_config record old_data trigger_type = Ok b.
Proof.
  unfold well_formed_record, well_formed_trigger_config, check_trigger_conditions.
  intros Hrecord Hconfig.
  destruct trigger_config as [| | | | |cfg]; try discriminate.
  destruct (dict_get_default "data" (VDict []) record) as [| | | | |data];
    try discriminate.
  destruct (String.eqb trigger_type "status_changed").
  - simpl.
    repeat match goal with
           | |- context [if ?c then _ else _] => destruct c
           end; eauto.
  - destruct (String.eqb trigger_type "field_updated").
    + simpl.
      destruct (truthy (dict_get_default "field_name" VNone cfg)); simpl; eauto.
      destruct (old_data_truthy old_data); simpl; eauto.
      destruct (dict_get_default "field_name" VNone cfg); try discriminate;
        simpl; eauto.
    + repeat match goal with
             | |- context [if ?c then _ else _] => destruct c
             end; eauto.
Qed.


Lemma run_automations_spec
    (rules : list dict) (workspace_id entity_id trigger_type : string)
    (record : dict) (old_data : option dict) :
  well_formed_record record = true ->
  forallb (fun rule => well_formed_trigger_config (trigger_config_of rule)) rules = true ->
  forall (results : list dict) (w : world),
  exists (envelopes : list dict) (w' : world),
    execute_each (filter (rule_fires record old_data trigger_type) rules)
                 record workspace_id entity_id w = (Ok envelopes, w')
    /\ run_automations rules workspace_id entity_id trigger_type record old_data
                       results w = (Ok (results ++ envelopes)%list, w').
Proof.
  intros Hrecord. induction rules as [|rule rest IH]; intros Hwf results w.
  - exists [], w. split; [reflexivity|].
    simpl. unfold ret. now rewrite app_nil_r.
  - simpl in Hwf. apply andb_prop in Hwf as [Hrule Hrest].
    destruct (check_trigger_conditions_total (trigger_config_of rule) record
                old_data trigger_type Hrecord Hrule) as [b Hb].
    assert (Hfires : rule_fires record old_data trigger_type rule = b)
      by (unfold rule_fires; now rewrite Hb).
    simpl filter. rewrite Hfires.
    simpl run_automations. unfold bind at 1. unfold lift.
    unfold trigger_config_of in Hb. rewrite Hb.
    destruct b.
    + destruct (execute_cases rule record workspace_id entity_id w)
        as (envelope & w1 & Hexec & _).
      destruct (IH Hrest (results ++ [envelope])%list w1)
        as (envelopes & w' & Heach & Hrun).
      exists (envelope :: envelopes), w'. split.
      * simpl. unfold bind. rewrite Hexec, Heach. reflexivity.
      * unfold bind. rewrite Hexec, Hrun.
        now rewrite <- app_assoc.
    + apply (IH Hrest results w).
Qed.




Example dispatch_keeps_going_after_failures :
  fst (trigger_automations "ws" "e1" "record_created" sample_record None sample_world)
  = Ok [[("success", VBool false); ("error", VStr "No recipient email found")];
        [("success", VBool true);
         ("action_type", VStr "create_task");
         ("result", VDict [("task_created", VBool true);
                           ("title", VStr "Call Ann");
                           ("description", VStr "")])];
        [("success", VBool false); ("error", VStr "HTTP status 500")]].
Proof. vm_compute. reflexivity. Qed.

(** ** Rule management *)

Lemma forallb_snoc {A} (p : A -> bool) (l : list A) (x : A) :
  forallb p (l ++ [x]) = forallb p l && p x.
Proof. rewrite forallb_app. simpl. now rewrite andb_true_r. Qed.

Lemma dict_get_app (k : string) (a b : dict) :
  dict_get k (a ++ b)%list
  = match dict_get k a with Some v => Some v | None => dict_get k b end.
Proof.
  induction a as [|[k' v'] a IH]; simpl; [reflexivity|].
  destruct (String.eqb k k'); [reflexivity | exact IH].
Qed.

Lemma dict_get_opt_str (k k' : string) (o : option string) :
  dict_get k (opt_str k' o)
  = if String.eqb k k' then option_map VStr o else None.
Proof.
  destruct o as [s|]; simpl; destruct (String.eqb k k'); reflexivity.
Qed.

Ltac config_field c :=
  destruct c as [s b t u m h f n ti d];
  unfold ActionConfig_dict, dict_get_default;
  cbn [ac_subject ac_body ac_to_email ac_url ac_method ac_headers ac_field_name
       ac_new_value ac_title ac_description];
  do 9 rewrite dict_get_app;
  rewrite !dict_get_opt_str; destruct h; simpl;
  repeat match goal with
         | |- context [option_map VStr ?o] => is_var o; destruct o
         end;
  reflexivity.

Lemma ActionConfig_dict_subject (c : ActionConfig) :
  dict_get_default "subject" VNone (ActionConfig_dict c)
  = match ac_subject c with Some s => VStr s | None => VNone end.
Proof. config_field c. Qed.

Lemma ActionConfig_dict_body (c : ActionConfig) :
  dict_get_default "body" VNone (ActionConfig_dict c)
  = match ac_body c with Some s => VStr s | None => VNone end.
Proof. config_field c. Qed.

Lemma ActionConfig_dict_url (c : ActionConfig) :
  dict_get_default "url" VNone (ActionConfig_dict c)
  = match ac_url c with Some s => VStr s | None => VNone end.
Proof. config_field c. Qed.

Lemma ActionConfig_dict_method (c : ActionConfig) :
  dict_get_default "method" VNone (ActionConfig_dict c)
  = match ac_method c with Some s => VStr s | None => VNone end.
Proof. config_field c. Qed.

Lemma ActionConfig_dict_field_name (c : ActionConfig) :
  dict_get_default "field_name" VNone (ActionConfig_dict c)
  = match ac_field_name c with Some s => VStr s | None => VNone end.
Proof. config_field c. Qed.

Lemma ActionConfig_dict_title (c : ActionConfig) :
  dict_get_default "title" VNone (ActionConfig_dict c)
  = match ac_title c with Some s => VStr s | None => VNone end.
Proof. config_field c. Qed.

Lemma opt_falsy_truthy (o : option string) :
  truthy (match o with Some s => VStr s | None => VNone end) = negb (opt_falsy o).
Proof. destruct o; reflexivity. Qed.

(** What [_validate_action_config] lets through satisfies the contract. *)
Lemma validated_config_meets_contract (action_type : string) (config : ActionConfig) :
  string_in action_type known_action_types = true ->
  _validate_action_config action_type config = Ok tt ->
  required_fields_ok (VStr action_type) (VDict (ActionConfig_dict config)) = true.
Proof.
  unfold string_in, known_action_types, _validate_action_config,
    required_fields_ok, has_field.
  cbn [existsb]. intros Hkind Hvalid.
  rewrite ActionConfig_dict_subject, ActionConfig_dict_body, ActionConfig_dict_url,
    ActionConfig_dict_method, ActionConfig_dict_field_name, ActionConfig_dict_title.
  rewrite !opt_falsy_truthy.
  destruct (String.eqb action_type "send_email").
  { destruct (opt_falsy (ac_subject config)), (opt_falsy (ac_body config));
      (discriminate || reflexivity). }
  destruct (String.eqb action_type "webhook").
  { destruct (opt_falsy (ac_url config)); [discriminate|].
    destruct (ac_method config) as [m|]; [|discriminate].
    destruct (string_in m ["POST"; "PUT"; "PATCH"]); (discriminate || reflexivity). }
  destruct (String.eqb action_type "update_field").
  { destruct (opt_falsy (ac_field_name config)); (discriminate || reflexivity). }
  destruct (String.eqb action_type "create_task").
  { destruct (opt_falsy (ac_title config)); (discriminate || reflexivity). }
  discriminate.
Qed.

(** Rule creation keeps the contract: a request whose action
    configuration misses a required field is refused before anything is
    stored. *)
Lemma create_automation_keeps_contract
    (workspace_id : string) (request : CreateAutomationRequest) (w : world) :
  CreateAutomationRequest_valid request = true ->
  store_ok w = true ->
  store_ok (snd (create_automation workspace_id request w)) = true.
Proof.
  intros Hvalid Hstore.
  assert (Hkind : string_in (cr_action_type request) known_action_types = true).
  { unfold CreateAutomationRequest_valid in Hvalid.
    now apply andb_prop in Hvalid as [_ Hvalid]. }
  assert (Hpop : forall w0 plan, store_ok w0 = true -> store_ok (set_faults plan w0) = true)
    by (intros w0 plan H; exact H).
  unfold create_automation, http_errors, try_except, select_entity.
  unfold bind at 1. unfold bind at 1. unfold external at 1.
  assert (Hbody : forall w0 : world, store_ok w0 = true ->
    store_ok (snd (
      let (r, w') :=
        (if negb (match find (fun row =>
                     py_eq (dict_get_default "id" VNone row) (VStr (cr_entity_id request))
                     && py_eq (dict_get_default "workspace_id" VNone row) (VStr workspace_id))
                    (w_entities w0) with
                  | Some row => truthy (VDict row)
                  | None => false
                  end)
         then raise (HTTPException HTTP_404_NOT_FOUND "Entity not found in workspace")
         else
           (lift (_validate_action_config (cr_action_type request) (cr_action_config request)) ;;;
            rows <- insert_rule
                      [("workspace_id", VStr workspace_id);
                       ("entity_id", VStr (cr_entity_id request));
                       ("name", VStr (cr_name request));
                       ("trigger_type", VStr (cr_trigger_type request));
                       ("trigger_config", VDict (TriggerConfig_dict (cr_trigger_config request)));
                       ("action_type", VStr (cr_action_type request));
                       ("action_config", VDict (ActionConfig_dict (cr_action_config request)));
                       ("is_active", VBool (cr_is_active request))] ;;
            match rows with
            | [] => raise (HTTPException HTTP_500_INTERNAL_SERVER_ERROR
                             "Failed to create automation")
            | automation :: _ =>
                ret (SuccessResponse "Automation created successfully"
                                     [("automation", VDict automation)])
            end)%M) w0 in
      match r with
      | Ok a => (Ok a, w')
      | Raise e =>
          match e with
          | HTTPException _ _ => raise e
          | _ => raise (HTTPException HTTP_500_INTERNAL_SERVER_ERROR (exn_str e))
          end w'
      end)) = true).
  { intros w0 H0.
    destruct (negb _); [exact H0|].
    unfold bind at 1. unfold lift.
    destruct (_validate_action_config (cr_action_type request) (cr_action_config request))
      as [[]|e] eqn:Hv.
    - pose proof (validated_config_meets_contract _ _ Hkind Hv) as Hok.
      unfold insert_rule. unfold bind at 1. unfold bind at 1. unfold external.
      destruct (w_faults w0) as [|[msg|] plan]; cbn [fst snd raise ret];
        try exact H0;
        unfold store_ok; cbn [w_rules set_rules set_ids set_faults];
        rewrite forallb_snoc; fold (store_ok w0); rewrite H0; cbn [andb];
        exact Hok.
    - destruct e; exact H0. }
  destruct (w_faults w) as [|[msg|] plan].
  - apply Hbody, Hstore.
  - exact Hstore.
  - apply Hbody, Hpop, Hstore.
Qed.

(** C4, on the code.  The store of the sample world satisfies the
    contract, and the creation path refuses a notification rule without
    subject and body.  The update path takes the same configuration for the
    stored notification rule [a1], answers with success, and leaves a
    store that breaks the contract. *)
Theorem update_automation_skips_validation :
  store_ok sample_world = true
  /\ UpdateAutomationRequest_valid sample_update = true
  /\ _validate_action_config "send_email" ActionConfig_default
     = Raise (HTTPException 400 "Email action requires subject and body")
  /\ fst (update_automation "ws" "a1" sample_update sample_world)
     = Ok (SuccessResponse "Automation updated successfully"
             [("automation",
               VDict (sample_rule "a1" "send_email" [("method", VStr "POST")] true))])
  /\ store_ok (snd (update_automation "ws" "a1" sample_update sample_world)) = false.
Proof. repeat split; vm_compute; reflexivity. Qed.

(* ===================================================================== *)
(** * Further properties *)
(* ===================================================================== *)

(** ** Validation of action configurations *)

(** For the four action kinds, [_validate_action_config] accepts a
    configuration exactly when its dictionary form meets the required-field
    contract of the kind, and every refusal is an HTTP 400; for any other
    kind it accepts whatever it is given. *)
Theorem validation_decides_contract (action_type : string) (config : ActionConfig) :
  (string_in action_type known_action_types = true ->
   (_validate_action_config action_type config = Ok tt
    /\ required_fields_ok (VStr action_type) (VDict (ActionConfig_dict config)) = true)
   \/ (exists detail : string,
         _validate_action_config action_type config
         = Raise (HTTPException HTTP_400_BAD_REQUEST detail)
         /\ required_fields_ok (VStr action_type) (VDict (ActionConfig_dict config))
            = false))
  /\ (string_in action_type known_action_types = false ->
      _validate_action_config action_type config = Ok tt).
Proof.
  unfold string_in, known_action_types, _validate_action_config,
    required_fields_ok, has_field.
  cbn [existsb].
  rewrite ActionConfig_dict_subject, ActionConfig_dict_body, ActionConfig_dict_url,
    ActionConfig_dict_method, ActionConfig_dict_field_name, ActionConfig_dict_title.
  rewrite !opt_falsy_truthy.
  split; intros Hkind.
  - destruct (String.eqb action_type "send_email").
    { destruct (opt_falsy (ac_subject config)), (opt_falsy (ac_body config));
        cbn [orb negb andb]; eauto. }
    destruct (String.eqb action_type "webhook").
    { destruct (opt_falsy (ac_url config)); cbn [orb negb andb]; eauto.
      destruct (ac_method config) as [m|]; cbn [negb]; eauto.
      destruct (string_in m ["POST"; "PUT"; "PATCH"]); cbn [negb]; eauto. }
    destruct (String.eqb action_type "update_field").
    { destruct (opt_falsy (ac_field_name config)); cbn [orb negb andb]; eauto. }
    destruct (String.eqb action_type "create_task").
    { destruct (opt_falsy (ac_title config)); cbn [orb negb andb]; eauto. }
    discriminate.
  - repeat (apply orb_false_elim in Hkind as [?H Hkind]).
    now rewrite H, H0, H1, H2.
Qed.

Lemma validation_decides_contract_witness :
  (_validate_action_config "webhook"
     (mkActionConfig None None None (Some "https://example.com/hook") (Some "GET")
                     None None None None None) = Ok tt
   /\ required_fields_ok (VStr "webhook")
        (VDict (ActionConfig_dict
                  (mkActionConfig None None None (Some "https://example.com/hook")
                                  (Some "GET") None None None None None))) = true)
  \/ (exists detail : string,
        _validate_action_config "webhook"
          (mkActionConfig None None None (Some "https://example.com/hook") (Some "GET")
                          None None None None None)
        = Raise (HTTPException HTTP_400_BAD_REQUEST detail)
        /\ required_fields_ok (VStr "webhook")
             (VDict (ActionConfig_dict
                       (mkActionConfig None None None (Some "https://example.com/hook")
                                       (Some "GET") None None None None None))) = false).
Proof.
  exact (proj1 (validation_decides_contract "webhook"
                  (mkActionConfig None None None (Some "https://example.com/hook")
                                  (Some "GET") None None None None None)) eq_refl).
Defined.

(** ** Rule creation *)

Ltac break_if :=
  match goal with
  | |- context [if ?c then _ else _] => destruct c eqn:?
  end.

Lemma create_automation_cases
    (workspace_id : string) (request : CreateAutomationRequest) (w : world) :
  match create_automation workspace_id request w with
  | (Ok response, w') =>
      exists row : dict,
        w_rules w' = (w_rules w ++ [row])%list
        /\ response = SuccessResponse "Automation created successfully"
                        [("automation", VDict row)]
        /\ _validate_action_config (cr_action_type request) (cr_action_config request)
           = Ok tt
        /\ dict_get "workspace_id" row = Some (VStr workspace_id)
        /\ dict_get "entity_id" row = Some (VStr (cr_entity_id request))
        /\ dict_get "trigger_type" row = Some (VStr (cr_trigger_type request))
        /\ dict_get "trigger_config" row
           = Some (VDict (TriggerConfig_dict (cr_trigger_config request)))
        /\ dict_get "action_type" row = Some (VStr (cr_action_type request))
        /\ dict_get "action_config" row
           = Some (VDict (ActionConfig_dict (cr_action_config request)))
        /\ dict_get "is_active" row = Some (VBool (cr_is_active request))
  | (Raise e, w') =>
      (exists (code : Z) (detail : string), e = HTTPException code detail)
      /\ w_rules w' = w_rules w
  end.
Proof.
  unfold create_automation, http_errors, try_except, select_entity, insert_rule.
  unfold bind, external, lift, raise, ret. cbv beta.
  assert (Hrow : forall id : string,
    let row := dict_set "id" (VStr id)
      [("workspace_id", VStr workspace_id);
       ("entity_id", VStr (cr_entity_id request));
       ("name", VStr (cr_name request));
       ("trigger_type", VStr (cr_trigger_type request));
       ("trigger_config", VDict (TriggerConfig_dict (cr_trigger_config request)));
       ("action_type", VStr (cr_action_type request));
       ("action_config", VDict (ActionConfig_dict (cr_action_config request)));
       ("is_active", VBool (cr_is_active request))] in
    dict_get "workspace_id" row = Some (VStr workspace_id)
    /\ dict_get "entity_id" row = Some (VStr (cr_entity_id request))
    /\ dict_get "trigger_type" row = Some (VStr (cr_trigger_type request))
    /\ dict_get "trigger_config" row
       = Some (VDict (TriggerConfig_dict (cr_trigger_config request)))
    /\ dict_get "action_type" row = Some (VStr (cr_action_type request))
    /\ dict_get "action_config" row
       = Some (VDict (ActionConfig_dict (cr_action_config request)))
    /\ dict_get "is_active" row = Some (VBool (cr_is_active request))).
  { intros id row. unfold row.
    repeat split; rewrite dict_get_set_ne by discriminate; reflexivity. }
  destruct (w_faults w) as [|[msg|] plan] eqn:Hplan.
  - break_if; [cbn; eauto|].
    destruct (_validate_action_config _ _) as [[]|e] eqn:Hvalid.
    + rewrite Hplan. cbn [fst snd w_rules set_rules set_ids w_ids].
      eexists. split; [reflexivity|]. split; [reflexivity|].
      split; [reflexivity|]. apply Hrow.
    + destruct e; cbn; eauto.
  - cbn. eauto.
  - cbn [w_entities set_faults].
    break_if; [cbn; eauto|].
    destruct (_validate_action_config _ _) as [[]|e] eqn:Hvalid.
    + cbn [w_faults set_faults].
      destruct plan as [|[msg|] plan'];
        cbn [fst snd w_rules set_rules set_ids set_faults w_ids];
        try (eexists; split; [reflexivity|]; split; [reflexivity|];
             split; [reflexivity|]; apply Hrow);
        eauto.
    + destruct e; cbn; eauto.
Qed.

(** [create_automation] is all or nothing.  When it answers, exactly one
    row was appended to the rules, the answer carries that row, the action
    configuration passed validation, and the row holds the workspace, the
    entity, the trigger and the action of the request.  When it raises, the
    error is an [HTTPException] and the rules are as before. *)
Theorem create_automation_all_or_nothing
    (workspace_id : string) (request : CreateAutomationRequest) (w : world) :
  match create_automation workspace_id request w with
  | (Ok response, w') =>
      exists row : dict,
        w_rules w' = (w_rules w ++ [row])%list
        /\ response = SuccessResponse "Automation created successfully"
                        [("automation", VDict row)]
        /\ _validate_action_config (cr_action_type request) (cr_action_config request)
           = Ok tt
        /\ dict_get "workspace_id" row = Some (VStr workspace_id)
        /\ dict_get "entity_id" row = Some (VStr (cr_entity_id request))
        /\ dict_get "trigger_type" row = Some (VStr (cr_trigger_type request))
        /\ dict_get "trigger_config" row
           = Some (VDict (TriggerConfig_dict (cr_trigger_config request)))
        /\ dict_get "action_type" row = Some (VStr (cr_action_type request))
        /\ dict_get "action_config" row
           = Some (VDict (ActionConfig_dict (cr_action_config request)))
        /\ dict_get "is_active" row = Some (VBool (cr_is_active request))
  | (Raise e, w') =>
      (exists (code : Z) (detail : string), e = HTTPException code detail)
      /\ w_rules w' = w_rules w
  end.
Proof. apply create_automation_cases. Qed.

Lemma py_eq_VStr_refl (s : string) : py_eq (VStr s) (VStr s) = true.
Proof. simpl. apply String.eqb_refl. Qed.

(** A rule that [create_automation] has stored is what the trigger
    dispatcher loads for the workspace, entity and trigger kind of the
    request: the rules selected afterwards are those selected before,
    followed by the new row when the request is active, and unchanged when
    it is not. *)
Theorem created_rule_is_selected
    (workspace_id : string) (request : CreateAutomationRequest) (w w' : world)
    (response : dict) :
  create_automation workspace_id request w = (Ok response, w') ->
  exists row : dict,
    w_rules w' = (w_rules w ++ [row])%list
    /\ filter (rule_selected workspace_id (cr_entity_id request) (cr_trigger_type request))
              (w_rules w')
       = (filter (rule_selected workspace_id (cr_entity_id request)
                                (cr_trigger_type request)) (w_rules w)
          ++ (if cr_is_active request then [row] else []))%list.
Proof.
  intros Hrun.
  pose proof (create_automation_cases workspace_id request w) as Hcases.
  rewrite Hrun in Hcases.
  destruct Hcases as (row & Hrules & _ & _ & Hws & Hent & Htrig & _ & _ & _ & Hact).
  exists row. split; [exact Hrules|].
  rewrite Hrules, filter_app. f_equal.
  cbn [filter]. unfold rule_selected, dict_get_default.
  rewrite Hws, Hent, Htrig, Hact, !py_eq_VStr_refl.
  destruct (cr_is_active request); reflexivity.
Qed.

Lemma create_automation_keeps_contract_witness :
  store_ok (snd (create_automation "ws" sample_create sample_world)) = true.
Proof.
  apply (create_automation_keeps_contract "ws" sample_create sample_world);
    reflexivity.
Defined.

Lemma created_rule_is_selected_witness :
  exists row : dict,
    w_rules (snd (create_automation "ws" sample_create sample_world))
    = (w_rules sample_world ++ [row])%list
    /\ filter (rule_selected "ws" "e1" "record_created")
              (w_rules (snd (create_automation "ws" sample_create sample_world)))
       = (filter (rule_selected "ws" "e1" "record_created") (w_rules sample_world)
          ++ [row])%list.
Proof.
  exact (created_rule_is_selected "ws" sample_create sample_world
           (snd (create_automation "ws" sample_create sample_world))
           (SuccessResponse "Automation created successfully"
              [("automation",
                VDict (dict_set "id" (VStr "a5")
                   [("workspace_id", VStr "ws");
                    ("entity_id", VStr "e1");
                    ("name", VStr "follow up");
                    ("trigger_type", VStr "record_created");
                    ("trigger_config", VDict []);
                    ("action_type", VStr "create_task");
                    ("action_config",
                     VDict [("method", VStr "POST"); ("title", VStr "Call {{full_name}}")]);
                    ("is_active", VBool true)]))])
           eq_refl).
Defined.

(** ** Rule update *)

Lemma dict_merge_other (k : string) (upd row : dict) :
  dict_get k upd = None -> dict_get k (dict_merge row upd) = dict_get k row.
Proof.
  unfold dict_merge. revert row.
  induction upd as [|[k' v'] upd IH]; intros row Hnone; [reflexivity|].
  simpl in Hnone. destruct (String.eqb k k') eqn:Hk; [discriminate|].
  simpl. rewrite (IH _ Hnone).
  apply dict_get_set_ne. now apply String.eqb_neq.
Qed.

Lemma dict_merge_written (k : string) (v : value) (before after row : dict) :
  dict_get k after = None ->
  dict_get k (dict_merge row (before ++ (k, v) :: after)%list) = Some v.
Proof.
  intros Hnone. unfold dict_merge. rewrite fold_left_app. simpl.
  fold (dict_merge (dict_set k v
          (fold_left (fun acc kv => dict_set (fst kv) (snd kv) acc) before row)) after).
  rewrite (dict_merge_other k after _ Hnone).
  apply dict_get_set_eq.
Qed.

Lemma update_data_other (request : UpdateAutomationRequest) (k : string) :
  string_in k updatable_columns = false -> dict_get k (update_data_of request) = None.
Proof.
  unfold string_in, updatable_columns, update_data_of. cbn [existsb].
  intros H. repeat (apply orb_false_elim in H as [?H H]).
  destruct (ur_name request), (ur_is_active request), (ur_trigger_config request),
    (ur_action_config request); cbn [app dict_get];
    rewrite ?H0, ?H1, ?H2, ?H3; reflexivity.
Qed.

Lemma rule_addressed_merge (automation_id workspace_id : string)
    (request : UpdateAutomationRequest) (row : dict) :
  rule_addressed automation_id workspace_id (dict_merge row (update_data_of request))
  = rule_addressed automation_id workspace_id row.
Proof.
  unfold rule_addressed, dict_get_default.
  rewrite !dict_merge_other by (apply update_data_other; reflexivity).
  reflexivity.
Qed.

Lemma updated_rows_frame (automation_id workspace_id : string)
    (request : UpdateAutomationRequest) (rules : list dict) :
  Forall2 (row_frame automation_id workspace_id) rules
    (map (fun row => if rule_addressed automation_id workspace_id row
                     then dict_merge row (update_data_of request) else row) rules).
Proof.
  induction rules as [|row rules IH]; simpl; constructor; trivial.
  unfold row_frame.
  destruct (rule_addressed automation_id workspace_id row).
  - split; [discriminate|].
    intros k Hk. apply dict_merge_other, update_data_other, Hk.
  - split; reflexivity.
Qed.

Lemma Forall2_row_frame_refl (automation_id workspace_id : string) (rules : list dict) :
  Forall2 (row_frame automation_id workspace_id) rules rules.
Proof.
  induction rules; constructor; trivial. split; reflexivity.
Qed.

Lemma no_row_addressed_no_change (automation_id workspace_id : string)
    (request : UpdateAutomationRequest) (rules : list dict) :
  filter (rule_addressed automation_id workspace_id)
    (map (fun row => if rule_addressed automation_id workspace_id row
                     then dict_merge row (update_data_of request) else row) rules) = [] ->
  map (fun row => if rule_addressed automation_id workspace_id row
                  then dict_merge row (update_data_of request) else row) rules = rules.
Proof.
  induction rules as [|row rules IH]; simpl; [reflexivity|].
  destruct (rule_addressed automation_id workspace_id row) eqn:Hrow.
  - rewrite rule_addressed_merge, Hrow. discriminate.
  - rewrite Hrow. intros H. now rewrite IH.
Qed.

Lemma update_automation_cases
    (workspace_id automation_id : string) (request : UpdateAutomationRequest) (w : world) :
  Forall2 (row_frame automation_id workspace_id) (w_rules w)
          (w_rules (snd (update_automation workspace_id automation_id request w)))
  /\ match update_automation workspace_id automation_id request w with
     | (Ok response, w') =>
         exists automation : dict,
           response = SuccessResponse "Automation updated successfully"
                        [("automation", VDict automation)]
           /\ In automation (w_rules w')
           /\ rule_addressed automation_id workspace_id automation = true
           /\ w_rules w' = updated_rows automation_id workspace_id request (w_rules w)
     | (Raise e, w') =>
         (exists (code : Z) (detail : string), e = HTTPException code detail)
         /\ w_rules w' = w_rules w
     end.
Proof.
  unfold update_automation, http_errors, try_except, update_rule.
  change (_ ++ _ ++ _ ++ _)%list with (update_data_of request).
  unfold bind, external, lift, raise, ret. cbv beta.
  destruct (negb (truthy (VDict (update_data_of request)))).
  { cbn [fst snd]. split; [apply Forall2_row_frame_refl | eauto]. }
  change (map (fun row => if rule_addressed automation_id workspace_id row
                          then dict_merge row (update_data_of request) else row))
    with (updated_rows automation_id workspace_id request).
  set (rows := fun w0 : world =>
         updated_rows automation_id workspace_id request (w_rules w0)).
  assert (Hdone : forall w0 : world, w_rules w0 = w_rules w ->
    Forall2 (row_frame automation_id workspace_id) (w_rules w)
      (w_rules (snd (
         let (r, w') :=
           match filter (rule_addressed automation_id workspace_id) (rows w0) with
           | [] => fun w1 : world =>
                     (Raise (HTTPException HTTP_404_NOT_FOUND "Automation not found"), w1)
           | automation :: _ => fun w1 : world =>
                     (Ok (SuccessResponse "Automation updated successfully"
                            [("automation", VDict automation)]), w1)
           end (set_rules (rows w0) w0) in
         match r with
         | Ok a => (Ok a, w')
         | Raise e =>
             match e with
             | HTTPException _ _ => fun w1 : world => (Raise e, w1)
             | _ => fun w1 : world =>
                      (Raise (HTTPException HTTP_500_INTERNAL_SERVER_ERROR (exn_str e)), w1)
             end w'
         end)))
    /\ match (let (r, w') :=
           match filter (rule_addressed automation_id workspace_id) (rows w0) with
           | [] => fun w1 : world =>
                     (Raise (HTTPException HTTP_404_NOT_FOUND "Automation not found"), w1)
           | automation :: _ => fun w1 : world =>
                     (Ok (SuccessResponse "Automation updated successfully"
                            [("automation", VDict automation)]), w1)
           end (set_rules (rows w0) w0) in
         match r with
         | Ok a => (Ok a, w')
         | Raise e =>
             match e with
             | HTTPException _ _ => fun w1 : world => (Raise e, w1)
             | _ => fun w1 : world =>
                      (Raise (HTTPException HTTP_500_INTERNAL_SERVER_ERROR (exn_str e)), w1)
             end w'
         end) with
       | (Ok response, w') =>
           exists automation : dict,
             response = SuccessResponse "Automation updated successfully"
                          [("automation", VDict automation)]
             /\ In automation (w_rules w')
             /\ rule_addressed automation_id workspace_id automation = true
             /\ w_rules w' = rows w
       | (Raise e, w') =>
           (exists (code : Z) (detail : string), e = HTTPException code detail)
           /\ w_rules w' = w_rules w
       end).
  { intros w0 Hsame. unfold rows. rewrite Hsame.
    destruct (filter (rule_addressed automation_id workspace_id) (updated_rows automation_id workspace_id request (w_rules w)))
      as [|automation rest] eqn:Hfilter; cbn [fst snd w_rules set_rules].
    - unfold updated_rows in *.
      apply no_row_addressed_no_change in Hfilter. rewrite Hfilter.
      split; [apply Forall2_row_frame_refl | eauto].
    - split; [apply updated_rows_frame|].
      exists automation.
      assert (Hin : In automation
                (filter (rule_addressed automation_id workspace_id)
                        (updated_rows automation_id workspace_id request (w_rules w))))
        by (rewrite Hfilter; now left).
      apply filter_In in Hin. destruct Hin as [Hin Haddr]. auto. }
  destruct (w_faults w) as [|[msg|] plan].
  - apply Hdone. reflexivity.
  - cbn [fst snd w_rules set_faults]. split; [apply Forall2_row_frame_refl | eauto].
  - apply Hdone. reflexivity.
Qed.

(** [update_automation] changes nothing but updatable columns of the
    addressed rule.  Row by row, the rules after the call are the rules
    before it, except that the addressed rows may differ in [name],
    [is_active], [trigger_config] and [action_config].  When it answers,
    the answer carries a stored row that is addressed; when it raises, the
    error is an [HTTPException] and the rules are exactly as before.  A
    request without any field is refused with HTTP 400 before the store is
    called. *)
Theorem update_automation_frame
    (workspace_id automation_id : string) (request : UpdateAutomationRequest) (w : world) :
  Forall2 (row_frame automation_id workspace_id) (w_rules w)
          (w_rules (snd (update_automation workspace_id automation_id request w)))
  /\ match update_automation workspace_id automation_id request w with
     | (Ok response, w') =>
         exists automation : dict,
           response = SuccessResponse "Automation updated successfully"
                        [("automation", VDict automation)]
           /\ In automation (w_rules w')
           /\ rule_addressed automation_id workspace_id automation = true
     | (Raise e, w') =>
         (exists (code : Z) (detail : string), e = HTTPException code detail)
         /\ w_rules w' = w_rules w
     end
  /\ (update_data_of request = [] ->
      update_automation workspace_id automation_id request w
      = (Raise (HTTPException HTTP_400_BAD_REQUEST "No fields to update"), w)).
Proof.
  pose proof (update_automation_cases workspace_id automation_id request w)
    as [Hframe Hcases].
  split; [exact Hframe | split].
  - destruct (update_automation workspace_id automation_id request w) as [[response|e] w'].
    + destruct Hcases as (automation & H1 & H2 & H3 & _). eauto.
    + exact Hcases.
  - intros Hempty. unfold update_automation, http_errors, try_except.
    change (_ ++ _ ++ _ ++ _)%list with (update_data_of request).
    rewrite Hempty. reflexivity.
Qed.

Lemma update_automation_frame_witness :
  update_automation "ws" "a1" (mkUpdateAutomationRequest None None None None) sample_world
  = (Raise (HTTPException HTTP_400_BAD_REQUEST "No fields to update"), sample_world).
Proof.
  exact (proj2 (proj2 (update_automation_frame "ws" "a1"
                         (mkUpdateAutomationRequest None None None None) sample_world))
               eq_refl).
Defined.

Lemma update_data_is_active (request : UpdateAutomationRequest) (b : bool) (row : dict) :
  ur_is_active request = Some b ->
  dict_get "is_active" (dict_merge row (update_data_of request)) = Some (VBool b).
Proof.
  intros Hb. unfold update_data_of. rewrite Hb.
  apply (dict_merge_written "is_active" (VBool b)
           (match ur_name request with Some n => [("name", VStr n)] | None => [] end)).
  destruct (ur_trigger_config request), (ur_action_config request); reflexivity.
Qed.

(** A rule switched off through [update_automation] is no longer loaded
    by the trigger dispatcher: after a successful update that sets
    [is_active] to false, no stored rule with that identifier in that
    workspace is selected, for any workspace, entity and trigger kind. *)
Theorem deactivated_rule_is_not_selected
    (workspace_id automation_id : string) (request : UpdateAutomationRequest)
    (w w' : world) (response : dict) :
  ur_is_active request = Some false ->
  update_automation workspace_id automation_id request w = (Ok response, w') ->
  forall row : dict,
    In row (w_rules w') ->
    rule_addressed automation_id workspace_id row = true ->
    forall workspace_id' entity_id trigger_type : string,
      rule_selected workspace_id' entity_id trigger_type row = false.
Proof.
  intros Hoff Hrun row Hin Haddr workspace_id' entity_id trigger_type.
  pose proof (update_automation_cases workspace_id automation_id request w)
    as [_ Hcases].
  rewrite Hrun in Hcases. destruct Hcases as (_ & _ & _ & _ & Hrules).
  rewrite Hrules in Hin. unfold updated_rows in Hin.
  apply in_map_iff in Hin. destruct Hin as (row0 & Hrow & _).
  destruct (rule_addressed automation_id workspace_id row0) eqn:Haddr0.
  - subst row. unfold rule_selected, dict_get_default.
    rewrite (update_data_is_active request false row0 Hoff).
    cbn [py_eq Bool.eqb]. apply andb_false_r.
  - subst row. congruence.
Qed.

Lemma deactivated_rule_is_not_selected_witness :
  rule_selected "ws" "e1" "record_created"
    (sample_rule "a2" "create_task" [("title", VStr "Call {{full_name}}")] false)
  = false.
Proof.
  apply (deactivated_rule_is_not_selected "ws" "a2" sample_deactivate sample_world
           (snd (update_automation "ws" "a2" sample_deactivate sample_world))
           (SuccessResponse "Automation updated successfully"
              [("automation",
                VDict (sample_rule "a2" "create_task"
                         [("title", VStr "Call {{full_name}}")] false))])
           eq_refl eq_refl).
  - vm_compute. right. left. reflexivity.
  - reflexivity.
Defined.

(** ** Rule deletion *)

Lemma filter_none_keeps_all {A} (p : A -> bool) (l : list A) :
  filter p l = [] -> filter (fun x => negb (p x)) l = l.
Proof.
  induction l as [|x l IH]; simpl; [reflexivity|].
  destruct (p x); [discriminate|]. intros H. simpl. now rewrite IH.
Qed.

Lemma delete_automation_cases (workspace_id automation_id : string) (w : world) :
  match delete_automation workspace_id automation_id w with
  | (Ok response, w') =>
      response = SuccessResponse "Automation deleted successfully" []
      /\ w_rules w'
         = filter (fun row => negb (rule_addressed automation_id workspace_id row))
                  (w_rules w)
      /\ exists row : dict,
           In row (w_rules w) /\ rule_addressed automation_id workspace_id row = true
  | (Raise e, w') =>
      (exists (code : Z) (detail : string), e = HTTPException code detail)
      /\ w_rules w' = w_rules w
  end.
Proof.
  unfold delete_automation, http_errors, try_except, delete_rule.
  unfold bind, external, lift, raise, ret. cbv beta.
  assert (Hdone : forall w0 : world, w_rules w0 = w_rules w ->
    match (let (r, w') :=
             match filter (rule_addressed automation_id workspace_id) (w_rules w0) with
             | [] => fun w1 : world =>
                 (Raise (HTTPException HTTP_404_NOT_FOUND "Automation not found"), w1)
             | _ :: _ => fun w1 : world =>
                 (Ok (SuccessResponse "Automation deleted successfully" []), w1)
             end (set_rules
                    (filter (fun row => negb (rule_addressed automation_id workspace_id row))
                            (w_rules w0)) w0) in
           match r with
           | Ok a => (Ok a, w')
           | Raise e =>
               match e with
               | HTTPException _ _ => fun w1 : world => (Raise e, w1)
               | _ => fun w1 : world =>
                   (Raise (HTTPException HTTP_500_INTERNAL_SERVER_ERROR (exn_str e)), w1)
               end w'
           end) with
    | (Ok response, w') =>
        response = SuccessResponse "Automation deleted successfully" []
        /\ w_rules w'
           = filter (fun row => negb (rule_addressed automation_id workspace_id row))
                    (w_rules w)
        /\ exists row : dict,
             In row (w_rules w) /\ rule_addressed automation_id workspace_id row = true
    | (Raise e, w') =>
        (exists (code : Z) (detail : string), e = HTTPException code detail)
        /\ w_rules w' = w_rules w
    end).
  { intros w0 Hsame. rewrite Hsame.
    destruct (filter (rule_addressed automation_id workspace_id) (w_rules w))
      as [|row rest] eqn:Hfilter; cbn [fst snd w_rules set_rules].
    - split; [eauto|]. now apply filter_none_keeps_all.
    - split; [reflexivity|]. split; [reflexivity|].
      exists row. apply filter_In. rewrite Hfilter. now left. }
  destruct (w_faults w) as [|[msg|] plan].
  - apply Hdone. reflexivity.
  - cbn [fst snd w_rules set_faults]. eauto.
  - apply Hdone. reflexivity.
Qed.

(** [delete_automation] removes exactly the addressed rules.  When it
    answers, some stored rule was addressed, the rules left are the others
    in their order, and none of them is addressed any more; when it raises
    (nothing addressed, or the store failed), the error is an
    [HTTPException] and the rules are as before. *)
Theorem delete_automation_removes_addressed
    (workspace_id automation_id : string) (w w' : world) :
  (forall response : dict,
     delete_automation workspace_id automation_id w = (Ok response, w') ->
     w_rules w'
     = filter (fun row => negb (rule_addressed automation_id workspace_id row))
              (w_rules w)
     /\ (exists row : dict,
           In row (w_rules w) /\ rule_addressed automation_id workspace_id row = true)
     /\ (forall row : dict,
           In row (w_rules w') -> rule_addressed automation_id workspace_id row = false))
  /\ (forall e : exn,
        delete_automation workspace_id automation_id w = (Raise e, w') ->
        (exists (code : Z) (detail : string), e = HTTPException code detail)
        /\ w_rules w' = w_rules w).
Proof.
  pose proof (delete_automation_cases workspace_id automation_id w) as Hcases.
  split.
  - intros response Hrun. rewrite Hrun in Hcases.
    destruct Hcases as (_ & Hrules & Hsome).
    split; [exact Hrules | split; [exact Hsome|]].
    intros row Hin. rewrite Hrules in Hin. apply filter_In in Hin.
    destruct Hin as [_ Hneg]. now apply negb_true_iff in Hneg.
  - intros e Hrun. now rewrite Hrun in Hcases.
Qed.

Lemma delete_automation_removes_addressed_witness :
  w_rules (snd (delete_automation "ws" "a2" sample_world))
  = filter (fun row => negb (rule_addressed "a2" "ws" row)) (w_rules sample_world)
  /\ (exists row : dict,
        In row (w_rules sample_world) /\ rule_addressed "a2" "ws" row = true)
  /\ (forall row : dict,
        In row (w_rules (snd (delete_automation "ws" "a2" sample_world))) ->
        rule_addressed "a2" "ws" row = false).
Proof.
  exact (proj1 (delete_automation_removes_addressed "ws" "a2" sample_world
                  (snd (delete_automation "ws" "a2" sample_world)))
               (SuccessResponse "Automation deleted successfully" []) eq_refl).
Defined.

(** ** Rules managed through the handlers and the trigger dispatcher *)

Lemma TriggerConfig_dict_well_formed (c : TriggerConfig) :
  well_formed_trigger_config (VDict (TriggerConfig_dict c)) = true.
Proof.
  destruct c as [[from|] [to|] [field|]]; reflexivity.
Qed.

Lemma updated_row_well_formed (request : UpdateAutomationRequest) (row : dict) :
  well_formed_trigger_config (trigger_config_of row) = true ->
  well_formed_trigger_config
    (trigger_config_of (dict_merge row (update_data_of request))) = true.
Proof.
  intros Hrow. unfold trigger_config_of, dict_get_default.
  destruct (ur_trigger_config request) as [c|] eqn:Hc.
  - assert (Hget : dict_get "trigger_config" (dict_merge row (update_data_of request))
                   = Some (VDict (TriggerConfig_dict c))).
    { unfold update_data_of. rewrite Hc, app_assoc.
      apply (dict_merge_written "trigger_config" (VDict (TriggerConfig_dict c))
               ((match ur_name request with Some n => [("name", VStr n)] | None => [] end)
                ++ (match ur_is_active request with
                    | Some b => [("is_active", VBool b)]
                    | None => []
                    end))%list).
      destruct (ur_action_config request); reflexivity. }
    rewrite Hget. apply TriggerConfig_dict_well_formed.
  - rewrite dict_merge_other; [exact Hrow|].
    unfold update_data_of. rewrite Hc.
    destruct (ur_name request), (ur_is_active request), (ur_action_config request);
      reflexivity.
Qed.

(** The handlers keep every stored trigger configuration readable by
    the condition evaluator: if each stored rule has a well-formed trigger
    configuration, the same holds after [create_automation], after
    [update_automation] and after [delete_automation], whatever their
    outcome. *)
Theorem handlers_keep_store_well_formed
    (workspace_id automation_id : string) (create : CreateAutomationRequest)
    (update : UpdateAutomationRequest) (w : world) :
  store_wf w = true ->
  store_wf (snd (create_automation workspace_id create w)) = true
  /\ store_wf (snd (update_automation workspace_id automation_id update w)) = true
  /\ store_wf (snd (delete_automation workspace_id automation_id w)) = true.
Proof.
  intros Hwf. unfold store_wf in *. split; [|split].
  - pose proof (create_automation_cases workspace_id create w) as Hcases.
    destruct (create_automation workspace_id create w) as [[response|e] w'];
      cbn [snd].
    + destruct Hcases as (row & Hrules & _ & _ & _ & _ & _ & Htc & _).
      rewrite Hrules, forallb_snoc, Hwf. cbn [andb].
      unfold trigger_config_of, dict_get_default. rewrite Htc.
      apply TriggerConfig_dict_well_formed.
    + destruct Hcases as [_ Hrules]. now rewrite Hrules.
  - pose proof (update_automation_cases workspace_id automation_id update w)
      as [_ Hcases].
    destruct (update_automation workspace_id automation_id update w)
      as [[response|e] w']; cbn [snd].
    + destruct Hcases as (_ & _ & _ & _ & Hrules). rewrite Hrules.
      unfold updated_rows. rewrite forallb_forall in *.
      intros row Hin. apply in_map_iff in Hin. destruct Hin as (row0 & <- & Hin0).
      destruct (rule_addressed automation_id workspace_id row0).
      * apply updated_row_well_formed, Hwf, Hin0.
      * apply Hwf, Hin0.
    + destruct Hcases as [_ Hrules]. now rewrite Hrules.
  - pose proof (delete_automation_cases workspace_id automation_id w) as Hcases.
    destruct (delete_automation workspace_id automation_id w)
      as [[response|e] w']; cbn [snd].
    + destruct Hcases as (_ & Hrules & _). rewrite Hrules.
      rewrite forallb_forall in *. intros row Hin.
      apply filter_In in Hin. apply Hwf, Hin.
    + destruct Hcases as [_ Hrules]. now rewrite Hrules.
Qed.

Lemma handlers_keep_store_well_formed_witness :
  store_wf (snd (create_automation "ws" sample_create sample_world)) = true
  /\ store_wf (snd (update_automation "ws" "a2" sample_deactivate sample_world)) = true
  /\ store_wf (snd (delete_automation "ws" "a2" sample_world)) = true.
Proof.
  exact (handlers_keep_store_well_formed "ws" "a2" sample_create sample_deactivate
           sample_world eq_refl).
Defined.


(** ** What the actions touch *)
Ltac run_world :=
  repeat first
    [ progress cbn [fst snd w_faults w_rules w_logs w_record_updates w_http_calls
                    w_http_responses w_now w_ids w_entities
                    set_faults set_rules set_logs set_record_updates set_http_calls
                    set_http_responses set_ids]
    | match goal with
      | |- context [match w_faults ?w with _ => _ end] =>
          destruct (w_faults w) as [|[?|] ?] eqn:?
      end
    | match goal with
      | |- context [match w_http_responses ?w with _ => _ end] =>
          destruct (w_http_responses w) as [|[? ?] ?] eqn:?
      end
    | match goal with
      | |- context [match get ?a ?b ?c with _ => _ end] => destruct (get a b c) eqn:?
      end
    | match goal with
      | |- context [match ?x with _ => _ end] =>
          match type of x with
          | result _ => destruct x eqn:?
          | bool => destruct x eqn:?
          | value => destruct x eqn:?
          | option _ => destruct x eqn:?
          end
      end ].

Lemma call_webhook_frame (config : value) (record : dict)
    (workspace_id entity_id : string) (w : world) :
  let w' := snd (_call_webhook config record workspace_id entity_id w) in
  w_rules w' = w_rules w /\ w_logs w' = w_logs w
  /\ w_record_updates w' = w_record_updates w /\ w_now w' = w_now w.
Proof.
  unfold _call_webhook, http_request, raise_for_status, utcnow.
  unfold bind, external, lift, raise, ret. cbv beta.
  run_world; auto.
Qed.

Lemma update_field_frame (config : value) (record : dict)
    (workspace_id entity_id : string) (w : world) :
  let w' := snd (_update_field config record workspace_id entity_id w) in
  w_rules w' = w_rules w /\ w_logs w' = w_logs w
  /\ w_http_calls w' = w_http_calls w /\ w_now w' = w_now w.
Proof.
  unfold _update_field, update_record_data, merge_field, subscript.
  unfold bind, external, lift, raise, ret. cbv beta.
  run_world; auto.
Qed.

Lemma call_webhook_keeps_plan_empty (config : value) (record : dict)
    (workspace_id entity_id : string) (w : world) :
  w_faults w = [] ->
  w_faults (snd (_call_webhook config record workspace_id entity_id w)) = [].
Proof.
  intros Hplan.
  unfold _call_webhook, http_request, raise_for_status, utcnow.
  unfold bind, external, lift, raise, ret. cbv beta.
  run_world; try congruence; auto.
Qed.

Lemma update_field_keeps_plan_empty (config : value) (record : dict)
    (workspace_id entity_id : string) (w : world) :
  w_faults w = [] ->
  w_faults (snd (_update_field config record workspace_id entity_id w)) = [].
Proof.
  intros Hplan.
  unfold _update_field, update_record_data, merge_field, subscript.
  unfold bind, external, lift, raise, ret. cbv beta.
  run_world; try congruence; auto.
Qed.

Lemma run_action_frame
    (action_type action_config : value) (automation_rule record : dict)
    (workspace_id entity_id : string) (w : world) :
  let w' := snd (run_action action_type action_config automation_rule record
                            workspace_id entity_id w) in
  w_rules w' = w_rules w /\ w_logs w' = w_logs w /\ w_now w' = w_now w
  /\ (w_faults w = [] -> w_faults w' = [])
  /\ (py_eq action_type (VStr "webhook") = false -> w_http_calls w' = w_http_calls w)
  /\ (py_eq action_type (VStr "update_field") = false ->
      w_record_updates w' = w_record_updates w).
Proof.
  unfold run_action.
  destruct (py_eq action_type (VStr "send_email")); [cbn; auto 10|].
  destruct (py_eq action_type (VStr "webhook")) eqn:Hweb.
  { pose proof (call_webhook_frame action_config record workspace_id entity_id w)
      as (H1 & H2 & H3 & H4).
    pose proof (call_webhook_keeps_plan_empty action_config record
                  workspace_id entity_id w).
    cbv zeta in *. repeat split; auto. discriminate. }
  destruct (py_eq action_type (VStr "update_field")) eqn:Hupd.
  { pose proof (update_field_frame action_config record workspace_id entity_id w)
      as (H1 & H2 & H3 & H4).
    pose proof (update_field_keeps_plan_empty action_config record
                  workspace_id entity_id w).
    cbv zeta in *. repeat split; auto. discriminate. }
  destruct (py_eq action_type (VStr "create_task")); cbn; auto 10.
Qed.

(** Each action touches only its own resource.  Whatever the rule and
    the record, running the action of a rule leaves the rules and the
    execution log as they are; only a webhook action can add an HTTP
    request and only an update-field action can add a record update; a
    notification or a task action leaves the whole world unchanged. *)
Theorem actions_touch_only_their_resource
    (action_type action_config : value) (automation_rule record : dict)
    (workspace_id entity_id : string) (w : world) :
  let w' := snd (run_action action_type action_config automation_rule record
                            workspace_id entity_id w) in
  w_rules w' = w_rules w /\ w_logs w' = w_logs w
  /\ (py_eq action_type (VStr "webhook") = false -> w_http_calls w' = w_http_calls w)
  /\ (py_eq action_type (VStr "update_field") = false ->
      w_record_updates w' = w_record_updates w)
  /\ (py_eq action_type (VStr "send_email") = true
      \/ (py_eq action_type (VStr "webhook") = false
          /\ py_eq action_type (VStr "update_field") = false) ->
      w' = w).
Proof.
  pose proof (run_action_frame action_type action_config automation_rule record
                workspace_id entity_id w) as (H1 & H2 & _ & _ & H3 & H4).
  cbv zeta in *. repeat split; auto.
  unfold run_action. intros [Hmail | [Hweb Hupd]].
  - now rewrite Hmail.
  - rewrite Hweb, Hupd.
    destruct (py_eq action_type (VStr "send_email")); [reflexivity|].
    destruct (py_eq action_type (VStr "create_task")); reflexivity.
Qed.

Lemma actions_touch_only_their_resource_witness :
  snd (run_action (VStr "create_task") (VDict [("title", VStr "Call {{full_name}}")])
         [] sample_record "ws" "e1" sample_world) = sample_world.
Proof.
  apply (proj2 (proj2 (proj2 (proj2
           (actions_touch_only_their_resource (VStr "create_task")
              (VDict [("title", VStr "Call {{full_name}}")])
              [] sample_record "ws" "e1" sample_world))))).
  right. split; reflexivity.
Defined.

(** ** Accounting of the execution log *)

Lemma execute_keeps_rules
    (automation_rule record : dict) (workspace_id entity_id : string) (w : world) :
  w_rules (snd (execute automation_rule record workspace_id entity_id w)) = w_rules w.
Proof.
  destruct (execute_cases automation_rule record workspace_id entity_id w)
    as (envelope & w2 & Hexec & Hcase).
  rewrite Hexec. cbn [snd].
  pose proof (run_action_frame
                (dict_get_default "action_type" VNone automation_rule)
                (dict_get_default "action_config" (VDict []) automation_rule)
                automation_rule record workspace_id entity_id w) as (Hrules & _).
  cbv zeta in Hrules.
  destruct (fst (run_action _ _ _ _ _ _ _));
    destruct Hcase as (_ & _ & Hr & _); now rewrite Hr.
Qed.

Lemma execute_without_faults
    (automation_rule record : dict) (workspace_id entity_id : string) (w : world) :
  w_faults w = [] ->
  exists (envelope row : dict) (w' : world),
    execute automation_rule record workspace_id entity_id w = (Ok envelope, w')
    /\ w_faults w' = []
    /\ w_logs w' = (w_logs w ++ [row])%list
    /\ dict_get "automation_id" row = Some (dict_get_default "id" VNone automation_rule)
    /\ dict_get "record_id" row = Some (dict_get_default "id" VNone record)
    /\ dict_get "status" row
       = Some (VStr (if truthy (dict_get_default "success" VNone envelope)
                     then "success" else "error")).
Proof.
  intros Hplan.
  pose proof (run_action_frame
                (dict_get_default "action_type" VNone automation_rule)
                (dict_get_default "action_config" (VDict []) automation_rule)
                automation_rule record workspace_id entity_id w)
    as (_ & Hlogs & _ & Hempty & _).
  cbv zeta in *. specialize (Hempty Hplan).
  unfold execute, try_except. unfold bind at 1.
  destruct (run_action _ _ _ _ _ _ _) as [[res|e] w1]; cbn [snd] in *.
  - unfold bind, _log_execution, try_except, utcnow, insert_log, bind, external, ret.
    rewrite Hempty. cbn [fst snd w_logs w_faults set_logs].
    eexists. eexists. eexists. split; [reflexivity|].
    cbn [w_faults w_logs set_logs]. rewrite Hlogs.
    repeat split; auto.
  - unfold bind, _log_execution, try_except, utcnow, insert_log, bind, external, ret.
    rewrite Hempty. cbn [fst snd w_logs w_faults set_logs].
    eexists. eexists. eexists. split; [reflexivity|].
    cbn [w_faults w_logs set_logs]. rewrite Hlogs.
    repeat split; auto.
Qed.

Lemma execute_each_without_faults
    (rules : list dict) (record : dict) (workspace_id entity_id : string) (w : world) :
  w_faults w = [] ->
  exists (envelopes rows : list dict) (w' : world),
    execute_each rules record workspace_id entity_id w = (Ok envelopes, w')
    /\ w_faults w' = []
    /\ w_logs w' = (w_logs w ++ rows)%list
    /\ length envelopes = length rules
    /\ map (dict_get "automation_id") rows
       = map (fun rule => Some (dict_get_default "id" VNone rule)) rules.
Proof.
  revert w. induction rules as [|rule rest IH]; intros w Hplan.
  - exists [], [], w. simpl. rewrite app_nil_r. auto.
  - destruct (execute_without_faults rule record workspace_id entity_id w Hplan)
      as (envelope & row & w1 & Hexec & Hplan1 & Hlogs1 & Hid & _).
    destruct (IH w1 Hplan1) as (envelopes & rows & w' & Heach & Hplan' & Hlogs' & Hlen & Hids).
    exists (envelope :: envelopes), (row :: rows), w'.
    simpl. unfold bind. rewrite Hexec, Heach. unfold ret.
    rewrite Hlogs', Hlogs1, <- app_assoc, Hid, Hids, Hlen. auto.
Qed.

Lemma execute_each_keeps_rules
    (rules : list dict) (record : dict) (workspace_id entity_id : string) (w : world) :
  w_rules (snd (execute_each rules record workspace_id entity_id w)) = w_rules w.
Proof.
  revert w. induction rules as [|rule rest IH]; intros w; [reflexivity|].
  simpl. unfold bind.
  pose proof (execute_keeps_rules rule record workspace_id entity_id w) as Hk.
  destruct (execute rule record workspace_id entity_id w) as [[envelope|e] w1];
    cbn [snd] in *; [|exact Hk].
  pose proof (IH w1) as Hrest.
  destruct (execute_each rest record workspace_id entity_id w1) as [[envs|e] w2];
    unfold ret; cbn [snd] in *; congruence.
Qed.

(** On a store whose trigger configurations are well formed, and for a
    record whose data is a dictionary, the trigger dispatcher returns a
    list whenever the rules can be loaded: no stored rule can make it
    raise. *)
Theorem dispatch_returns_on_well_formed_store
    (workspace_id entity_id trigger_type : string)
    (record : dict) (old_data : option dict) (w : world) :
  store_wf w = true ->
  well_formed_record record = true ->
  next_call_succeeds w = true ->
  exists (results : list dict) (w' : world),
    trigger_automations workspace_id entity_id trigger_type record old_data w
    = (Ok results, w')
    /\ w_rules w' = w_rules w.
Proof.
  intros Hwf Hrecord Hnext.
  assert (Hrules : w_rules (after_call w) = w_rules w)
    by (unfold after_call; destruct (w_faults w); reflexivity).
  unfold trigger_automations, select_active_rules, bind.
  rewrite (external_ok w Hnext), Hrules.
  set (loaded := filter (rule_selected workspace_id entity_id trigger_type) (w_rules w)).
  assert (Hloaded : forallb (fun rule => well_formed_trigger_config (trigger_config_of rule))
                      loaded = true).
  { unfold store_wf in Hwf. rewrite forallb_forall in *.
    intros rule Hin. apply filter_In in Hin. apply Hwf, Hin. }
  destruct (run_automations_spec loaded workspace_id entity_id trigger_type
              record old_data Hrecord Hloaded [] (after_call w))
    as (envelopes & w' & Heach & Hrun).
  assert (Hkeep : w_rules w' = w_rules w).
  { pose proof (execute_each_keeps_rules
                  (filter (rule_fires record old_data trigger_type) loaded)
                  record workspace_id entity_id (after_call w)) as Hk.
    rewrite Heach in Hk. cbn [snd] in Hk. now rewrite Hk. }
  destruct loaded as [|rule rest]; simpl in *.
  - unfold ret in *. eexists. eexists. split; [reflexivity|]. exact Hrules.
  - eauto.
Qed.

Lemma dispatch_returns_on_well_formed_store_witness :
  exists (results : list dict) (w' : world),
    trigger_automations "ws" "e1" "record_created" sample_record None sample_world
    = (Ok results, w')
    /\ w_rules w' = w_rules sample_world.
Proof.
  exact (dispatch_returns_on_well_formed_store "ws" "e1" "record_created"
           sample_record None sample_world eq_refl eq_refl eq_refl).
Defined.

(** One log row per executed rule.  When no external call fails, on a
    well-formed store and record, the trigger dispatcher appends to the
    execution log exactly one row for each result it returns, in order, and
    the row of a result names the rule it comes from: the rules that were
    loaded and passed the condition evaluator. *)
Theorem dispatch_logs_one_row_per_result
    (workspace_id entity_id trigger_type : string)
    (record : dict) (old_data : option dict) (w : world) :
  w_faults w = [] ->
  store_wf w = true ->
  well_formed_record record = true ->
  exists (results rows : list dict) (w' : world),
    trigger_automations workspace_id entity_id trigger_type record old_data w
    = (Ok results, w')
    /\ w_logs w' = (w_logs w ++ rows)%list
    /\ length rows = length results
    /\ map (dict_get "automation_id") rows
       = map (fun rule => Some (dict_get_default "id" VNone rule))
             (filter (rule_fires record old_data trigger_type)
                     (filter (rule_selected workspace_id entity_id trigger_type)
                             (w_rules w))).
Proof.
  intros Hplan Hwf Hrecord.
  unfold trigger_automations, select_active_rules, bind, external.
  rewrite Hplan.
  set (loaded := filter (rule_selected workspace_id entity_id trigger_type) (w_rules w)).
  assert (Hloaded : forallb (fun rule => well_formed_trigger_config (trigger_config_of rule))
                      loaded = true).
  { unfold store_wf in Hwf. rewrite forallb_forall in *.
    intros rule Hin. apply filter_In in Hin. apply Hwf, Hin. }
  destruct (run_automations_spec loaded workspace_id entity_id trigger_type
              record old_data Hrecord Hloaded [] w)
    as (envelopes & w' & Heach & Hrun).
  destruct (execute_each_without_faults
              (filter (rule_fires record old_data trigger_type) loaded)
              record workspace_id entity_id w Hplan)
    as (envelopes' & rows & w'' & Heach' & _ & Hlogs & Hlen & Hids).
  rewrite Heach in Heach'. injection Heach' as <- <-.
  assert (Hrows : length rows = length envelopes).
  { rewrite Hlen. rewrite <- (length_map (dict_get "automation_id") rows), Hids.
    apply length_map. }
  destruct loaded as [|rule rest] eqn:Hl.
  - simpl in *. unfold ret in *. injection Heach as <- <-.
    exists [], rows, w. auto.
  - exists envelopes, rows, w'. simpl app in Hrun. auto.
Qed.

Lemma dispatch_logs_one_row_per_result_witness :
  exists (results rows : list dict) (w' : world),
    trigger_automations "ws" "e1" "record_created" sample_record None sample_world
    = (Ok results, w')
    /\ w_logs w' = (w_logs sample_world ++ rows)%list
    /\ length rows = length results
    /\ map (dict_get "automation_id") rows
       = [Some (VStr "a1"); Some (VStr "a2"); Some (VStr "a4")].
Proof.
  exact (dispatch_logs_one_row_per_result "ws" "e1" "record_created"
           sample_record None sample_world eq_refl eq_refl eq_refl).
Defined.

(** ** Webhook action *)

Lemma setdefault_has (k : string) (v : value) (d : dict) :
  dict_get k (setdefault k v d) <> None.
Proof.
  unfold setdefault. destruct (dict_get k d) eqn:Hk; [congruence|].
  rewrite dict_get_app, Hk. simpl. rewrite String.eqb_refl. discriminate.
Qed.

Ltac invert_ok :=
  repeat match goal with
         | H : match ?v with _ => _ end = Ok _ |- _ =>
             destruct v; try discriminate; injection H as <-
         | H : Ok _ = Ok _ |- _ => injection H as <-
         end.

(** A webhook action issues at most one HTTP request, and never one it
    should not: either no request is made and the action raises, or exactly
    one request is added, with method POST, PUT or PATCH, to the configured
    URL, with a [Content-Type] header, and with a body that carries the
    record, the workspace and the entity. *)
Theorem webhook_issues_at_most_one_request (config : value) (record : dict)
    (workspace_id entity_id : string) (w : world) :
  let outcome := _call_webhook config record workspace_id entity_id w in
  (w_http_calls (snd outcome) = w_http_calls w
   /\ exists e : exn, fst outcome = Raise e)
  \/ (exists (method url : string) (payload headers : dict),
        w_http_calls (snd outcome)
        = (w_http_calls w ++ [(method, url, payload, headers)])%list
        /\ string_in method webhook_methods = true
        /\ get config (VStr "url") VNone = Ok (VStr url)
        /\ dict_get "Content-Type" headers <> None
        /\ dict_get "record" payload = Some (VDict record)
        /\ dict_get "workspace_id" payload = Some (VStr workspace_id)
        /\ dict_get "entity_id" payload = Some (VStr entity_id)).
Proof.
  unfold _call_webhook, http_request, raise_for_status, utcnow.
  unfold bind, external, lift, raise, ret. cbv beta.
  run_world; cbv zeta; cbn [fst snd w_http_calls set_http_calls set_http_responses
                            set_faults];
    try (left; split; [reflexivity | eexists; reflexivity]).
  all: right; invert_ok.
  all: do 4 eexists; split; [reflexivity|];
    split; [unfold string_in, webhook_methods; cbn [existsb];
            rewrite orb_false_r, orb_assoc; assumption|];
    split; [first [reflexivity | eassumption]|];
    split; [apply setdefault_has|]; repeat split; reflexivity.
Qed.

Lemma substring_length_le (n : nat) (s : string) :
  (String.length (substring 0 n s) <= n)%nat.
Proof.
  revert s. induction n as [|n IH]; intros s.
  - destruct s; simpl; lia.
  - destruct s as [|c s]; simpl; [lia|]. specialize (IH s). lia.
Qed.



(** The answer of the endpoint decides the outcome of a webhook action.
    For a configuration with a non-empty URL, a method that is POST, PUT or
    PATCH in any letter case, and headers that are a dictionary, when the
    request goes through and the endpoint answers with [status_code] and
    [body]: the request is recorded with the upper-cased method; a status
    in 200..299 gives a result with that status and the first 500
    characters of the body; any other status makes the action raise. *)
Theorem webhook_outcome_by_status
    (cfg record h : dict) (workspace_id entity_id : string) (w : world)
    (m u body : string) (status_code : Z) (rest : list (Z * string)) :
  dict_get_default "url" VNone cfg = VStr u -> u <> ""%string ->
  dict_get_default "method" (VStr "POST") cfg = VStr m ->
  string_in (upper m) webhook_methods = true ->
  dict_get_default "headers" (VDict []) cfg = VDict h ->
  next_call_succeeds w = true ->
  w_http_responses w = (status_code, body) :: rest ->
  let outcome := _call_webhook (VDict cfg) record workspace_id entity_id w in
  (exists (payload headers : dict),
     w_http_calls (snd outcome)
     = (w_http_calls w ++ [(upper m, u, payload, headers)])%list)
  /\ w_http_responses (snd outcome) = rest
  /\ (is_error_status status_code = false ->
      fst outcome = Ok [("webhook_called", VBool true);
                        ("url", VStr u);
                        ("method", VStr (upper m));
                        ("status_code", VInt status_code);
                        ("response", VStr (substring 0 500 body))]
      /\ (String.length (substring 0 500 body) <= 500)%nat)
  /\ (is_error_status status_code = true ->
      exists msg : string, fst outcome = Raise (HTTPStatusError msg)).
Proof.
  intros Hu Hne Hm Hmethod Hh Hnext Hresp.
  unfold string_in, webhook_methods in Hmethod. cbn [existsb] in Hmethod.
  rewrite orb_false_r, orb_assoc in Hmethod.
  apply String.eqb_neq in Hne.
  unfold is_error_status.
  unfold _call_webhook, http_request, raise_for_status, bind, lift, get, utcnow.
  rewrite Hu, Hm, Hh. cbn [truthy negb]. rewrite Hne. cbn [negb].
  rewrite Hmethod. rewrite (external_ok w Hnext).
  assert (Hr : w_http_responses (after_call w) = (status_code, body) :: rest)
    by (unfold after_call; destruct (w_faults w); exact Hresp).
  assert (Hc : w_http_calls (after_call w) = w_http_calls w)
    by (unfold after_call; destruct (w_faults w); reflexivity).
  rewrite Hr, Hc. cbn [fst snd].
  destruct ((200 <=? status_code) && (status_code <=? 299)); cbn [negb fst snd];
    unfold ret, raise;
    cbn [fst snd w_http_calls w_http_responses set_http_calls set_http_responses];
    (split; [eauto|]); (split; [reflexivity|]);
    split; intros Hs; try discriminate.
  - split; [reflexivity | apply substring_length_le].
  - eauto.
Qed.

Lemma webhook_outcome_by_status_witness :
  exists msg : string,
    fst (_call_webhook
           (VDict [("url", VStr "https://example.com/hook"); ("method", VStr "post")])
           sample_record "ws" "e1" sample_world)
    = Raise (HTTPStatusError msg).
Proof.
  exact (proj2 (proj2 (proj2
           (webhook_outcome_by_status
              [("url", VStr "https://example.com/hook"); ("method", VStr "post")]
              sample_record [] "ws" "e1" sample_world
              "post" "https://example.com/hook" "boom" 500 []
              eq_refl ltac:(discriminate) eq_refl eq_refl eq_refl eq_refl eq_refl)))
           eq_refl).
Defined.

(** ** Update-field action *)

(** An update-field action writes all or nothing.  Whatever the
    configuration, the record and the fault plan: when the action returns,
    exactly one update was sent, for the record's own identifier; when it
    raises, no update was sent. *)
Theorem update_field_all_or_nothing (config : value) (record : dict)
    (workspace_id entity_id : string) (w : world) :
  match _update_field config record workspace_id entity_id w with
  | (Ok res, w') =>
      exists (id : value) (payload : dict),
        w_record_updates w' = (w_record_updates w ++ [(id, payload)])%list
        /\ dict_get "id" record = Some id
        /\ dict_get "field_updated" res = Some (VBool true)
  | (Raise e, w') => w_record_updates w' = w_record_updates w
  end.
Proof.
  unfold _update_field, update_record_data, merge_field, subscript.
  unfold bind, external, lift, raise, ret. cbv beta.
  run_world; auto.
  all: try match goal with
           | H1 : get ?d ?k _ = Raise _, H2 : match ?d with _ => _ end = Ok _ |- _ =>
               destruct d; try discriminate; destruct k; discriminate
           end.
  all: invert_ok; eauto.
Qed.

(** A record without an identifier cannot be updated.  For a rule whose
    action is an update of the non-empty field [f], on a record whose data
    is a dictionary but that has no [id]: the action raises [KeyError]
    before the store is called, the world is unchanged, and [execute]
    reports the failure with the error text ['id']. *)
Theorem update_field_needs_record_id
    (automation_rule record cfg data : dict) (f : string)
    (workspace_id entity_id : string) (w : world) :
  dict_get_default "action_type" VNone automation_rule = VStr "update_field" ->
  dict_get_default "action_config" (VDict []) automation_rule = VDict cfg ->
  dict_get "field_name" cfg = Some (VStr f) -> f <> ""%string ->
  dict_get_default "data" (VDict []) record = VDict data ->
  dict_get "id" record = None ->
  _update_field (VDict cfg) record workspace_id entity_id w = (Raise (KeyError "id"), w)
  /\ exists w' : world,
       execute automation_rule record workspace_id entity_id w
       = (Ok [("success", VBool false); ("error", VStr "'id'")], w')
       /\ w_record_updates w' = w_record_updates w.
Proof.
  intros Htype Hconfig Hf Hne Hdata Hid.
  assert (Hfn : dict_get_default "field_name" VNone cfg = VStr f)
    by (unfold dict_get_default; now rewrite Hf).
  assert (Htruthy : truthy (VStr f) = true)
    by (simpl; apply String.eqb_neq in Hne; now rewrite Hne).
  assert (Hrender : exists new_value : value,
    match dict_get_default "new_value" VNone cfg with
    | VStr _ =>
        rbind (_replace_template_variables
                 (dict_get_default "new_value" VNone cfg) record)
              (fun s => Ok (VStr s))
    | _ => Ok (dict_get_default "new_value" VNone cfg)
    end = Ok new_value).
  { destruct (dict_get_default "new_value" VNone cfg); eauto.
    rewrite (render_string _ record data Hdata). simpl. eauto. }
  destruct Hrender as [new_value Hrender].
  assert (Hraise : _update_field (VDict cfg) record workspace_id entity_id w
                   = (Raise (KeyError "id"), w)).
  { unfold _update_field, bind, lift, get, update_record_data, ret.
    rewrite Hfn, Htruthy, Hrender, Hdata.
    unfold merge_field, subscript. now rewrite Hid. }
  split; [exact Hraise|].
  destruct (execute_cases automation_rule record workspace_id entity_id w)
    as (envelope & w2 & Hexec & Hcase).
  cbv zeta in Hcase. rewrite Htype, Hconfig in Hcase.
  unfold run_action in Hcase. cbn [py_eq String.eqb Ascii.eqb Bool.eqb] in Hcase.
  rewrite Hraise in Hcase. cbn [fst snd] in Hcase.
  destruct Hcase as (Henv & _ & _ & Hupd & _).
  exists w2. rewrite Hexec, Henv. split; [reflexivity | exact Hupd].
Qed.

Lemma update_field_needs_record_id_witness :
  _update_field (VDict [("field_name", VStr "stage"); ("new_value", VStr "won")])
    [("data", VDict [("stage", VStr "new")])] "ws" "e1" sample_world
  = (Raise (KeyError "id"), sample_world).
Proof.
  exact (proj1 (update_field_needs_record_id
                  [("action_type", VStr "update_field");
                   ("action_config",
                    VDict [("field_name", VStr "stage"); ("new_value", VStr "won")])]
                  [("data", VDict [("stage", VStr "new")])]
                  [("field_name", VStr "stage"); ("new_value", VStr "won")]
                  [("stage", VStr "new")] "stage" "ws" "e1" sample_world
                  eq_refl eq_refl eq_refl ltac:(discriminate) eq_refl eq_refl)).
Defined.

(** ** Repeated execution *)

Lemma pure_action_result
    (action_type action_config : value) (automation_rule record : dict)
    (workspace_id entity_id : string) (w1 w2 : world) :
  py_eq action_type (VStr "send_email") = true
  \/ (py_eq action_type (VStr "webhook") = false
      /\ py_eq action_type (VStr "update_field") = false) ->
  fst (run_action action_type action_config automation_rule record
                  workspace_id entity_id w1)
  = fst (run_action action_type action_config automation_rule record
                    workspace_id entity_id w2).
Proof.
  unfold run_action. intros [Hmail | [Hweb Hupd]].
  - now rewrite Hmail.
  - rewrite Hweb, Hupd.
    destruct (py_eq action_type (VStr "send_email")); [reflexivity|].
    destruct (py_eq action_type (VStr "create_task")); reflexivity.
Qed.

(** Executing a rule twice logs twice.  When no external call fails, two
    executions of the same rule on the same record both return an envelope
    and append one log row each, without any deduplication; for an action
    that is neither a webhook nor a field update, the two envelopes are
    equal. *)
Theorem execute_twice_logs_twice
    (automation_rule record : dict) (workspace_id entity_id : string) (w : world) :
  w_faults w = [] ->
  exists (envelope1 envelope2 row1 row2 : dict) (w1 w2 : world),
    execute automation_rule record workspace_id entity_id w = (Ok envelope1, w1)
    /\ execute automation_rule record workspace_id entity_id w1 = (Ok envelope2, w2)
    /\ w_logs w2 = (w_logs w ++ [row1; row2])%list
    /\ (py_eq (dict_get_default "action_type" VNone automation_rule) (VStr "send_email")
        = true
        \/ (py_eq (dict_get_default "action_type" VNone automation_rule) (VStr "webhook")
            = false
            /\ py_eq (dict_get_default "action_type" VNone automation_rule)
                     (VStr "update_field") = false) ->
        envelope1 = envelope2).
Proof.
  intros Hplan.
  destruct (execute_without_faults automation_rule record workspace_id entity_id w Hplan)
    as (envelope1 & row1 & w1 & Hexec1 & Hplan1 & Hlogs1 & _).
  destruct (execute_without_faults automation_rule record workspace_id entity_id w1 Hplan1)
    as (envelope2 & row2 & w2 & Hexec2 & _ & Hlogs2 & _).
  exists envelope1, envelope2, row1, row2, w1, w2.
  split; [exact Hexec1 | split; [exact Hexec2 | split]].
  - rewrite Hlogs2, Hlogs1, <- app_assoc. reflexivity.
  - intros Hpure.
    destruct (execute_cases automation_rule record workspace_id entity_id w)
      as (e1 & v1 & He1 & Hc1).
    destruct (execute_cases automation_rule record workspace_id entity_id w1)
      as (e2 & v2 & He2 & Hc2).
    rewrite Hexec1 in He1. rewrite Hexec2 in He2.
    injection He1 as <- <-. injection He2 as <- <-.
    cbv zeta in Hc1, Hc2.
    rewrite (pure_action_result _ _ automation_rule record workspace_id entity_id
               w w1 Hpure) in Hc1.
    destruct (fst (run_action _ _ automation_rule record workspace_id entity_id w1));
      destruct Hc1 as [-> _]; destruct Hc2 as [-> _]; reflexivity.
Qed.

Lemma execute_twice_logs_twice_witness :
  exists (envelope1 envelope2 row1 row2 : dict) (w1 w2 : world),
    execute (sample_rule "a2" "create_task" [("title", VStr "Call {{full_name}}")] true)
            sample_record "ws" "e1" sample_world = (Ok envelope1, w1)
    /\ execute (sample_rule "a2" "create_task" [("title", VStr "Call {{full_name}}")] true)
               sample_record "ws" "e1" w1 = (Ok envelope2, w2)
    /\ w_logs w2 = (w_logs sample_world ++ [row1; row2])%list
    /\ (True -> envelope1 = envelope2).
Proof.
  destruct (execute_twice_logs_twice
              (sample_rule "a2" "create_task" [("title", VStr "Call {{full_name}}")] true)
              sample_record "ws" "e1" sample_world eq_refl)
    as (e1 & e2 & r1 & r2 & w1 & w2 & H1 & H2 & H3 & H4).
  exists e1, e2, r1, r2, w1, w2.
  repeat split; trivial. intros _. apply H4. right. split; reflexivity.
Defined.

(** ** Rendering: failures *)

Lemma rendering_outcome (template : value) (record : dict) :
  match _replace_template_variables template record with
  | Ok _ => renderable template record = true
  | Raise (TypeError _) => renderable template record = false
  | Raise _ => False
  end.
Proof.
  unfold _replace_template_variables, renderable, well_formed_record.
  destruct (truthy template) eqn:Ht; cbn [negb orb]; [|reflexivity].
  destruct (dict_get_default "data" (VDict []) record);
    destruct template; simpl in *; congruence.
Qed.

Lemma rendering_cases (template : value) (record : dict) :
  (renderable template record = true ->
   exists out : string, _replace_template_variables template record = Ok out)
  /\ (renderable template record = false ->
      exists msg : string, _replace_template_variables template record
                           = Raise (TypeError msg)).
Proof.
  pose proof (rendering_outcome template record) as H.
  destruct (_replace_template_variables template record) as [out|[]];
    split; intros Hr; try congruence; try contradiction; eauto.
Qed.

(** Rendering succeeds exactly on renderable input.  A falsy template
    gives the empty string whatever the record is; otherwise the template
    must be a string and the data of the record a dictionary, and every
    failure is a [TypeError], also for a template without any token. *)
Theorem rendering_succeeds_iff_renderable (template : value) (record : dict) :
  (truthy template = false -> _replace_template_variables template record = Ok ""%string)
  /\ match _replace_template_variables template record with
     | Ok _ => renderable template record = true
     | Raise (TypeError _) => renderable template record = false
     | Raise _ => False
     end.
Proof.
  split; [|apply rendering_outcome].
  unfold _replace_template_variables. now intros ->.
Qed.

Lemma rendering_succeeds_iff_renderable_witness :
  _replace_template_variables (VInt 0) [("data", VNone)] = Ok ""%string.
Proof.
  exact (proj1 (rendering_succeeds_iff_renderable (VInt 0) [("data", VNone)]) eq_refl).
Defined.

(** A task action succeeds exactly when its title and its description
    can both be rendered: each is absent, falsy, or a string on a record
    whose data is a dictionary.  The result then carries the two rendered
    strings; every failure is a [TypeError]. *)
Theorem create_task_succeeds_iff_renderable
    (cfg record : dict) (workspace_id : string) :
  let title := dict_get_default "title" (VStr "") cfg in
  let description := dict_get_default "description" (VStr "") cfg in
  match _create_task (VDict cfg) record workspace_id with
  | Ok res =>
      renderable title record && renderable description record = true
      /\ exists t d : string,
           _replace_template_variables title record = Ok t
           /\ _replace_template_variables description record = Ok d
           /\ res = [("task_created", VBool true);
                     ("title", VStr t);
                     ("description", VStr d)]
  | Raise (TypeError _) =>
      renderable title record && renderable description record = false
  | Raise _ => False
  end.
Proof.
  intros title description.
  unfold _create_task, get, rbind. fold title description.
  pose proof (rendering_outcome title record) as Ht.
  pose proof (rendering_outcome description record) as Hd.
  destruct (_replace_template_variables title record) as [t|[]];
    try contradiction; [|now rewrite Ht].
  destruct (_replace_template_variables description record) as [d|[]];
    try contradiction.
  - rewrite Ht, Hd. split; [reflexivity|]. eauto.
  - rewrite Hd. apply andb_false_r.
Qed.

(** ** Rendering: white space around a token name *)

Lemma lstrip_spaces (l s : string) :
  all_space l = true -> lstrip (l ++ s) = lstrip s.
Proof.
  induction l as [|c l IH]; simpl; [reflexivity|].
  intros H. apply andb_prop in H as [Hc Hl]. rewrite Hc. now apply IH.
Qed.

Lemma lstrip_all_space (s : string) : all_space s = true -> lstrip s = ""%string.
Proof.
  intros H. rewrite <- (append_nil_r s). rewrite lstrip_spaces by exact H. reflexivity.
Qed.

Lemma lstrip_clean (s : string) : starts_clean s = true -> lstrip s = s.
Proof.
  destruct s as [|c s]; simpl; [reflexivity|].
  intros H. apply negb_true_iff in H. now rewrite H.
Qed.

Lemma list_ascii_of_string_append (a b : string) :
  list_ascii_of_string (a ++ b) = (list_ascii_of_string a ++ list_ascii_of_string b)%list.
Proof. induction a as [|c a IH]; simpl; [reflexivity | now rewrite IH]. Qed.

Lemma string_of_list_ascii_app (a b : list ascii) :
  string_of_list_ascii (a ++ b)
  = (string_of_list_ascii a ++ string_of_list_ascii b)%string.
Proof. induction a as [|c a IH]; simpl; [reflexivity | now rewrite IH]. Qed.

Lemma string_rev_append (a b : string) :
  string_rev (a ++ b) = (string_rev b ++ string_rev a)%string.
Proof.
  unfold string_rev.
  now rewrite list_ascii_of_string_append, rev_app_distr, string_of_list_ascii_app.
Qed.

Lemma string_rev_involutive (s : string) : string_rev (string_rev s) = s.
Proof.
  unfold string_rev.
  now rewrite list_ascii_of_string_of_list_ascii, rev_involutive,
    string_of_list_ascii_of_string.
Qed.

Lemma all_space_append (a b : string) :
  all_space (a ++ b) = all_space a && all_space b.
Proof.
  induction a as [|c a IH]; simpl; [reflexivity|].
  now rewrite IH, andb_assoc.
Qed.

Lemma all_space_rev (s : string) : all_space (string_rev s) = all_space s.
Proof.
  induction s as [|c s IH]; [reflexivity|].
  change (String c s) with (String c "" ++ s)%string.
  rewrite string_rev_append, !all_space_append, IH.
  change (string_rev (String c "")) with (String c "").
  apply andb_comm.
Qed.

Lemma strip_padding (l name r : string) :
  all_space l = true -> all_space r = true -> trimmed name = true ->
  strip (l ++ name ++ r) = name.
Proof.
  intros Hl Hr Hname. unfold trimmed in Hname.
  apply andb_prop in Hname as [Hstart Hend].
  unfold strip, rstrip. rewrite lstrip_spaces by exact Hl.
  destruct name as [|c name].
  - simpl append. rewrite (lstrip_all_space r Hr). reflexivity.
  - assert (Hkeep : lstrip (String c name ++ r) = (String c name ++ r)%string).
    { apply lstrip_clean. exact Hstart. }
    rewrite Hkeep, string_rev_append.
    rewrite lstrip_spaces by (now rewrite all_space_rev).
    rewrite (lstrip_clean _ Hend). apply string_rev_involutive.
Qed.

Lemma strip_trimmed (name : string) : trimmed name = true -> strip name = name.
Proof.
  intros H. pose proof (strip_padding "" name "" eq_refl eq_refl H) as Hs.
  simpl append in Hs. now rewrite append_nil_r in Hs.
Qed.

Lemma space_is_no_brace (s : string) :
  all_space s = true -> string_mem "}" s = false.
Proof.
  induction s as [|c s IH]; [reflexivity|].
  intros H. change (is_space c && all_space s = true) in H.
  change ((Ascii.eqb "}" c || string_mem "}" s) = false).
  apply andb_prop in H as [Hc Hs]. rewrite (IH Hs), orb_false_r.
  destruct (Ascii.eqb_spec "}"%char c) as [<-|]; [|reflexivity].
  vm_compute in Hc. discriminate Hc.
Qed.

Lemma string_mem_append (c : ascii) (a b : string) :
  string_mem c (a ++ b) = string_mem c a || string_mem c b.
Proof.
  induction a as [|x a IH]; [reflexivity|].
  change (Ascii.eqb c x || string_mem c (a ++ b)
          = Ascii.eqb c x || string_mem c a || string_mem c b).
  now rewrite IH, orb_assoc.
Qed.

(** White space around a token name does not matter.  For a name that
    is not empty, holds no closing brace and neither starts nor ends with
    white space, the token written with any white space before and after
    the name renders exactly as the token written without, on every
    record. *)
Theorem token_name_is_stripped (l name r : string) (record : dict) :
  all_space l = true -> all_space r = true ->
  trimmed name = true -> name <> ""%string -> string_mem "}" name = false ->
  _replace_template_variables (VStr ("{{" ++ l ++ name ++ r ++ "}}")) record
  = _replace_template_variables (VStr ("{{" ++ name ++ "}}")) record.
Proof.
  intros Hl Hr Htrim Hne Hmem.
  destruct (dict_get_default "data" (VDict []) record) as [| | | | |data] eqn:Hdata;
    try (unfold _replace_template_variables; rewrite Hdata; reflexivity).
  rewrite !(render_string _ record data Hdata). f_equal.
  assert (Hpad : ("{{" ++ l ++ name ++ r ++ "}}")%string
                 = ("" ++ "{{" ++ (l ++ name ++ r) ++ "}}" ++ "")%string).
  { simpl. now rewrite !append_assoc. }
  assert (Hbare : ("{{" ++ name ++ "}}")%string
                  = ("" ++ "{{" ++ name ++ "}}" ++ "")%string) by reflexivity.
  rewrite Hpad, Hbare.
  rewrite !re_sub_token; try reflexivity; trivial.
  - unfold token_text.
    rewrite strip_padding by assumption. rewrite strip_trimmed by assumption.
    reflexivity.
  - destruct l as [|c l]; [|discriminate].
    destruct name as [|c name]; [congruence | discriminate].
  - rewrite !string_mem_append, Hmem, !space_is_no_brace by assumption. reflexivity.
Qed.

Lemma token_name_is_stripped_witness :
  _replace_template_variables (VStr "{{  full_name }}") sample_record
  = _replace_template_variables (VStr "{{full_name}}") sample_record.
Proof.
  exact (token_name_is_stripped "  " "full_name" " " sample_record
           eq_refl eq_refl eq_refl ltac:(discriminate) eq_refl).
Defined.

(** ** Testing a rule *)




(** ** Validated configurations at execution time *)

Ltac config_get c :=
  destruct c as [s b t u m h f n ti d];
  unfold ActionConfig_dict;
  cbn [ac_subject ac_body ac_to_email ac_url ac_method ac_headers ac_field_name
       ac_new_value ac_title ac_description];
  do 9 rewrite dict_get_app;
  rewrite !dict_get_opt_str; destruct h; simpl;
  repeat match goal with
         | |- context [option_map VStr ?o] => is_var o; destruct o
         end;
  reflexivity.

Lemma ActionConfig_get_subject (c : ActionConfig) :
  dict_get "subject" (ActionConfig_dict c) = option_map VStr (ac_subject c).
Proof. config_get c. Qed.

Lemma ActionConfig_get_body (c : ActionConfig) :
  dict_get "body" (ActionConfig_dict c) = option_map VStr (ac_body c).
Proof. config_get c. Qed.

Lemma ActionConfig_get_to_email (c : ActionConfig) :
  dict_get "to_email" (ActionConfig_dict c) = option_map VStr (ac_to_email c).
Proof. config_get c. Qed.

Lemma ActionConfig_get_url (c : ActionConfig) :
  dict_get "url" (ActionConfig_dict c) = option_map VStr (ac_url c).
Proof. config_get c. Qed.

Lemma ActionConfig_get_method (c : ActionConfig) :
  dict_get "method" (ActionConfig_dict c) = option_map VStr (ac_method c).
Proof. config_get c. Qed.

Lemma ActionConfig_get_headers (c : ActionConfig) :
  dict_get "headers" (ActionConfig_dict c) = option_map VDict (ac_headers c).
Proof. config_get c. Qed.

Lemma ActionConfig_get_field_name (c : ActionConfig) :
  dict_get "field_name" (ActionConfig_dict c) = option_map VStr (ac_field_name c).
Proof. config_get c. Qed.

Lemma ActionConfig_get_new_value (c : ActionConfig) :
  dict_get "new_value" (ActionConfig_dict c) = option_map VStr (ac_new_value c).
Proof. config_get c. Qed.

Lemma ActionConfig_get_title (c : ActionConfig) :
  dict_get "title" (ActionConfig_dict c) = option_map VStr (ac_title c).
Proof. config_get c. Qed.

Lemma ActionConfig_get_description (c : ActionConfig) :
  dict_get "description" (ActionConfig_dict c) = option_map VStr (ac_description c).
Proof. config_get c. Qed.

Lemma opt_falsy_false (o : option string) :
  opt_falsy o = false -> exists s : string, o = Some s /\ s <> ""%string.
Proof.
  destruct o as [s|]; [|discriminate]. simpl. intros H.
  exists s. split; [reflexivity|]. now apply String.eqb_neq.
Qed.

Lemma renderable_string (s : string) (record : dict) :
  well_formed_record record = true -> renderable (VStr s) record = true.
Proof. intros H. unfold renderable. rewrite H. apply orb_true_r. Qed.

Lemma render_optional_string (k : string) (o : option string) (cfg record : dict) :
  dict_get k cfg = option_map VStr o ->
  well_formed_record record = true ->
  exists out : string,
    _replace_template_variables (dict_get_default k (VStr "") cfg) record = Ok out.
Proof.
  intros Hget Hrecord. unfold dict_get_default. rewrite Hget.
  destruct o as [s|]; cbn [option_map].
  - apply (proj1 (rendering_cases (VStr s) record)), renderable_string, Hrecord.
  - exists ""%string. reflexivity.
Qed.

Lemma webhook_method_is_upper (m : string) :
  string_in m webhook_methods = true -> upper m = m.
Proof.
  unfold string_in, webhook_methods. cbn [existsb]. intros H.
  repeat (apply orb_prop in H as [H|H]); try discriminate;
    apply String.eqb_eq in H; subst m; reflexivity.
Qed.

(** Task, field-update and webhook rules that passed validation do not
    fail at execution for a reason of configuration.  For a configuration
    accepted by [_validate_action_config] and a record whose data is a
    dictionary: a task action returns; a field-update action returns
    provided the record has an identifier and the store accepts the write;
    a webhook action sends its request, to the configured URL with the
    configured method, provided the call goes through. *)
Theorem validated_rules_run
    (c : ActionConfig) (record : dict) (workspace_id entity_id : string) (w : world) :
  well_formed_record record = true ->
  (_validate_action_config "create_task" c = Ok tt ->
   exists res : dict,
     _create_task (VDict (ActionConfig_dict c)) record workspace_id = Ok res)
  /\ (_validate_action_config "update_field" c = Ok tt ->
      dict_get "id" record <> None ->
      next_call_succeeds w = true ->
      exists (res : dict) (w' : world),
        _update_field (VDict (ActionConfig_dict c)) record workspace_id entity_id w
        = (Ok res, w'))
  /\ (_validate_action_config "webhook" c = Ok tt ->
      next_call_succeeds w = true ->
      exists (u m : string) (payload headers : dict),
        ac_url c = Some u /\ ac_method c = Some m
        /\ w_http_calls (snd (_call_webhook (VDict (ActionConfig_dict c)) record
                                            workspace_id entity_id w))
           = (w_http_calls w ++ [(m, u, payload, headers)])%list).
Proof.
  intros Hrecord. split; [|split].
  - unfold _validate_action_config. cbn [String.eqb Ascii.eqb Bool.eqb].
    destruct (opt_falsy (ac_title c)) eqn:Htitle; [discriminate|]. intros _.
    destruct (render_optional_string "title" (ac_title c) _ record
                (ActionConfig_get_title c) Hrecord) as [t Ht].
    destruct (render_optional_string "description" (ac_description c) _ record
                (ActionConfig_get_description c) Hrecord) as [d Hd].
    unfold _create_task, get, rbind. rewrite Ht, Hd. eauto.
  - unfold _validate_action_config. cbn [String.eqb Ascii.eqb Bool.eqb].
    destruct (opt_falsy (ac_field_name c)) eqn:Hfield; [discriminate|].
    intros _ Hid Hnext.
    apply opt_falsy_false in Hfield. destruct Hfield as (f & Hf & Hne).
    destruct (dict_get "id" record) as [rid|] eqn:Hrid; [|congruence].
    unfold well_formed_record in Hrecord.
    destruct (dict_get_default "data" (VDict []) record) as [| | | | |data] eqn:Hdata;
      try discriminate.
    assert (Hfn : dict_get_default "field_name" VNone (ActionConfig_dict c) = VStr f)
      by (unfold dict_get_default; now rewrite ActionConfig_get_field_name, Hf).
    assert (Htruthy : truthy (VStr f) = true)
      by (simpl; apply String.eqb_neq in Hne; now rewrite Hne).
    assert (Hrender : exists new_value : value,
      match dict_get_default "new_value" VNone (ActionConfig_dict c) with
      | VStr _ =>
          rbind (_replace_template_variables
                   (dict_get_default "new_value" VNone (ActionConfig_dict c)) record)
                (fun s => Ok (VStr s))
      | _ => Ok (dict_get_default "new_value" VNone (ActionConfig_dict c))
      end = Ok new_value).
    { destruct (dict_get_default "new_value" VNone (ActionConfig_dict c)); eauto.
      rewrite (render_string _ record data Hdata). simpl. eauto. }
    destruct Hrender as [new_value Hrender].
    unfold _update_field, bind, lift, get, update_record_data, ret.
    rewrite Hfn, Htruthy, Hrender, Hdata.
    unfold merge_field, subscript. rewrite Hrid.
    cbn [negb]. cbv beta iota. unfold bind. rewrite (external_ok w Hnext).
    eauto.
  - unfold _validate_action_config. cbn [String.eqb Ascii.eqb Bool.eqb].
    destruct (opt_falsy (ac_url c)) eqn:Hurl; [discriminate|].
    destruct (ac_method c) as [m|] eqn:Hm; [|discriminate].
    destruct (string_in m ["POST"; "PUT"; "PATCH"]) eqn:Hin; [|discriminate].
    intros _ Hnext.
    apply opt_falsy_false in Hurl. destruct Hurl as (u & Hu & Hne).
    assert (Hupper : upper m = m) by (apply webhook_method_is_upper, Hin).
    unfold string_in in Hin. cbn [existsb] in Hin.
    rewrite orb_false_r, orb_assoc in Hin.
    apply String.eqb_neq in Hne.
    exists u, m.
    unfold _call_webhook, http_request, raise_for_status, bind, lift, get, utcnow.
    unfold dict_get_default.
    rewrite ActionConfig_get_url, ActionConfig_get_method, ActionConfig_get_headers,
      Hu, Hm.
    cbn [option_map truthy negb]. rewrite Hne. cbn [negb]. rewrite Hupper, Hin.
    rewrite (external_ok w Hnext).
    assert (Hc : w_http_calls (after_call w) = w_http_calls w)
      by (unfold after_call; destruct (w_faults w); reflexivity).
    destruct (ac_headers c); cbn [option_map];
      destruct (w_http_responses (after_call w)) as [|[code body] rest];
      cbn [fst snd]; repeat break_if; unfold ret, raise;
      cbn [fst snd w_http_calls set_http_calls set_http_responses];
      rewrite Hc; eauto 10.
Qed.

Lemma validated_rules_run_witness :
  exists res : dict,
    _create_task (VDict (ActionConfig_dict (cr_action_config sample_create)))
                 sample_record "ws" = Ok res.
Proof.
  exact (proj1 (validated_rules_run (cr_action_config sample_create) sample_record
                  "ws" "e1" sample_world eq_refl) eq_refl).
Defined.

(** Validation does not secure a recipient.  For a notification
    configuration accepted by [_validate_action_config] and a record whose
    data is a dictionary without a usable [email]: with a non-empty
    [to_email] the action returns and names that address; without one it
    raises ["No recipient email found"]. *)
Theorem notification_needs_a_recipient
    (c : ActionConfig) (record data : dict) (automation_name : value) :
  _validate_action_config "send_email" c = Ok tt ->
  dict_get_default "data" (VDict []) record = VDict data ->
  truthy (dict_get_default "email" VNone data) = false ->
  (forall a : string,
     ac_to_email c = Some a -> a <> ""%string ->
     exists res : dict,
       _send_email (VDict (ActionConfig_dict c)) record automation_name = Ok res
       /\ dict_get "recipient" res = Some (VStr a))
  /\ (opt_falsy (ac_to_email c) = true ->
      _send_email (VDict (ActionConfig_dict c)) record automation_name
      = Raise (ValueError "No recipient email found")).
Proof.
  intros Hvalid Hdata Hemail.
  assert (Hrecord : well_formed_record record = true)
    by (unfold well_formed_record; now rewrite Hdata).
  split.
  - intros a Ha Hne.
    destruct (render_optional_string "subject" (ac_subject c) _ record
                (ActionConfig_get_subject c) Hrecord) as [rs Hs].
    destruct (render_optional_string "body" (ac_body c) _ record
                (ActionConfig_get_body c) Hrecord) as [rb Hb].
    assert (Hto : dict_get_default "to_email" VNone (ActionConfig_dict c) = VStr a)
      by (unfold dict_get_default; now rewrite ActionConfig_get_to_email, Ha).
    unfold _send_email, get, rbind, py_or. rewrite Hdata, Hemail, !Hto.
    cbn [truthy]. apply String.eqb_neq in Hne. rewrite Hne. cbn [negb].
    rewrite Hs, Hb. eexists. split; reflexivity.
  - intros Hnone.
    assert (Hto : truthy (dict_get_default "to_email" VNone (ActionConfig_dict c))
                  = false).
    { unfold dict_get_default. rewrite ActionConfig_get_to_email.
      destruct (ac_to_email c) as [a|]; cbn [option_map truthy]; [|reflexivity].
      simpl in Hnone. now rewrite Hnone. }
    unfold _send_email, get, rbind, py_or. now rewrite Hdata, Hemail, Hto.
Qed.

Lemma notification_needs_a_recipient_witness :
  _send_email
    (VDict (ActionConfig_dict
              (mkActionConfig (Some "Hi") (Some "Hello {{full_name}}") None None
                              (Some "POST") None None None None None)))
    sample_record (VStr "welcome")
  = Raise (ValueError "No recipient email found").
Proof.
  exact (proj2 (notification_needs_a_recipient
                  (mkActionConfig (Some "Hi") (Some "Hello {{full_name}}") None None
                                  (Some "POST") None None None None None)
                  sample_record [("full_name", VStr "Ann"); ("status", VStr "won")]
                  (VStr "welcome") eq_refl eq_refl eq_refl) eq_refl).
Defined.
